(** * PlainsightAI-takehome QA scripts: the pipeline runner and the validator

    A shallow embedding of the two scripts of [qa_tests/] that carry
    procedural logic,

    - [run_qa_pipeline.py]   (port search, result aggregation, fallback HTML
      report, trend widgets, the [main] driver), and
    - [final_qa_validation.py] ([run_pytest_command], the five validations,
      [generate_validation_report], [main]),

    followed by the properties of the specification stated over them.

    Conventions.  A Python [str] is a [string] whose characters are code
    points below 256; a Python [int] is a [Z]; a [dict] with string keys is a
    [gmap string _] or, inside JSON values, an association list; an
    exception is a value of [exn] and code that may raise returns a
    [result].  External programs (pytest, allure, scoop, the socket layer,
    the browser) are fields of a [world] record: the scripts only observe
    what those programs answer. *)

From Stdlib Require Import ZArith List String Ascii Lia.
From stdpp Require Import base option list gmap strings pretty.

Local Open Scope Z_scope.


(* ===================================================================== *)
(** * Python primitives used by the scripts                               *)
(* ===================================================================== *)

Module Py.

(** ** Exceptions *)

(** The exception classes that the two scripts name or can meet.  Only
    synchronous exceptions below [Exception] are modelled. *)
Inductive exn_class :=
  | Exception
  | ZeroDivisionError | OverflowError
  | ValueError | JSONDecodeError
  | IndexError | AttributeError
  | OSError | FileNotFoundError | FileExistsError | PermissionError
  | IsADirectoryError | NotADirectoryError
  | CalledProcessError | TimeoutExpired.

Definition exn_class_eqb (a b : exn_class) : bool :=
  match a, b with
  | Exception, Exception | ZeroDivisionError, ZeroDivisionError
  | OverflowError, OverflowError | ValueError, ValueError
  | JSONDecodeError, JSONDecodeError | IndexError, IndexError
  | AttributeError, AttributeError | OSError, OSError
  | FileNotFoundError, FileNotFoundError | FileExistsError, FileExistsError
  | PermissionError, PermissionError | IsADirectoryError, IsADirectoryError
  | NotADirectoryError, NotADirectoryError
  | CalledProcessError, CalledProcessError | TimeoutExpired, TimeoutExpired => true
  | _, _ => false
  end.

(** The direct base class. *)
Definition base_class (c : exn_class) : option exn_class :=
  match c with
  | Exception => None
  | JSONDecodeError => Some ValueError
  | FileNotFoundError | FileExistsError | PermissionError
  | IsADirectoryError | NotADirectoryError => Some OSError
  | _ => Some Exception
  end.

(** [issubclass c d]; the hierarchy has depth two. *)
Definition issubclass (c d : exn_class) : bool :=
  exn_class_eqb c d
  || match base_class c with
     | Some b => exn_class_eqb b d
                 || match base_class b with
                    | Some b' => exn_class_eqb b' d
                    | None => false
                    end
     | None => false
     end.

(** An exception object: its class and [str(e)]. *)
Record exn := Exn { exn_cls : exn_class; exn_str : string }.

(** [except (c1, c2, ...)] *)
Definition matches (classes : list exn_class) (e : exn) : bool :=
  existsb (issubclass (exn_cls e)) classes.

Inductive result (A : Type) :=
  | Ok (a : A)
  | Raise (e : exn).
Arguments Ok {A} a.
Arguments Raise {A} e.

Definition rbind {A B} (r : result A) (k : A -> result B) : result B :=
  match r with
  | Ok a => k a
  | Raise e => Raise e
  end.

(** [try: r  except cs1: h1  except cs2: h2 ...]: the first clause whose
    classes match handles the exception; an exception raised by a handler
    is not offered to the later clauses. *)
Fixpoint try_excepts {A} (r : result A)
    (clauses : list (list exn_class * (exn -> result A))) : result A :=
  match r with
  | Ok a => Ok a
  | Raise e =>
      match clauses with
      | [] => Raise e
      | (cs, h) :: rest => if matches cs e then h e else try_excepts (Raise e) rest
      end
  end.

(** ** Strings *)

Definition newline : ascii := "010"%char.

(** [c.isspace()] on code points below 256: TAB..CR, FS..US, space, NEL
    and NBSP. *)
Definition isspace (c : ascii) : bool :=
  let n := nat_of_ascii c in
  ((9 <=? n)%nat && (n <=? 13)%nat) || ((28 <=? n)%nat && (n <=? 32)%nat)
  || (n =? 133)%nat || (n =? 160)%nat.

Definition isdigit (c : ascii) : bool :=
  let n := nat_of_ascii c in (48 <=? n)%nat && (n <=? 57)%nat.

(** [s.startswith(p)] *)
Fixpoint startswith (p s : string) : bool :=
  match p, s with
  | EmptyString, _ => true
  | String a p', String b s' => Ascii.eqb a b && startswith p' s'
  | String _ _, EmptyString => false
  end.

(** [needle in s] *)
Fixpoint contains (needle s : string) : bool :=
  startswith needle s
  || match s with
     | EmptyString => false
     | String _ s' => contains needle s'
     end.

(** [s.split(c)] for a one-character separator: every separator cuts, empty
    pieces are kept, the result is never empty. *)
Fixpoint split (c : ascii) (s : string) : list string :=
  match s with
  | EmptyString => [EmptyString]
  | String a s' =>
      if Ascii.eqb a c then EmptyString :: split c s'
      else match split c s' with
           | h :: t => String a h :: t
           | [] => [String a EmptyString]
           end
  end.

(** [s.split()]: cut at runs of whitespace, no empty pieces. *)
Fixpoint split_ws (s : string) : list string :=
  match s with
  | EmptyString => []
  | String a s' =>
      if isspace a then split_ws s'
      else match s' with
           | EmptyString => [String a EmptyString]
           | String b _ =>
               if isspace b then String a EmptyString :: split_ws s'
               else match split_ws s' with
                    | h :: t => String a h :: t
                    | [] => [String a EmptyString]
                    end
           end
  end.

(** ** [int(s)] in base ten

    Surrounding whitespace is dropped, one sign is allowed, and the digits
    may be grouped by single underscores placed between two digits.  A
    numeral of more than [max_str_digits] digits is refused (the default
    limit of the interpreter, Python 3.11 and later).  [None] stands for
    [ValueError]. *)

(** The whitespace that [int] drops around the numeral: TAB..CR and the
    space, and NEL and NBSP, which the conversion first turns into spaces.
    The separators FS..US, which [str.split()] cuts at, are not dropped. *)
Definition int_isspace (c : ascii) : bool :=
  let n := nat_of_ascii c in
  ((9 <=? n)%nat && (n <=? 13)%nat) || (n =? 32)%nat
  || (n =? 133)%nat || (n =? 160)%nat.

Fixpoint lstrip (s : string) : string :=
  match s with
  | EmptyString => EmptyString
  | String a s' => if int_isspace a then lstrip s' else s
  end.

Fixpoint rstrip (s : string) : string :=
  match s with
  | EmptyString => EmptyString
  | String a s' =>
      match rstrip s' with
      | EmptyString => if int_isspace a then EmptyString else String a EmptyString
      | r => String a r
      end
  end.

Definition strip (s : string) : string := rstrip (lstrip s).

(** [sys.get_int_max_str_digits()] *)
Definition max_str_digits : nat := 4300.

(** The number of digits of a numeral; underscores do not count. *)
Fixpoint digit_count (s : string) : nat :=
  match s with
  | EmptyString => 0
  | String c s' => if isdigit c then S (digit_count s') else digit_count s'
  end.

Definition digit_val (c : ascii) : option Z :=
  if isdigit c then Some (Z.of_nat (nat_of_ascii c) - 48) else None.

Fixpoint int_digits (acc : Z) (after_underscore : bool) (s : string) : option Z :=
  match s with
  | EmptyString => if after_underscore then None else Some acc
  | String c s' =>
      if Ascii.eqb c "_"%char then
        if after_underscore then None else int_digits acc true s'
      else match digit_val c with
           | Some d => int_digits (10 * acc + d) false s'
           | None => None
           end
  end.

Definition int_unsigned (s : string) : option Z :=
  match s with
  | EmptyString => None
  | String c s' =>
      match digit_val c with
      | Some d =>
          if (max_str_digits <? digit_count s)%nat then None
          else int_digits d false s'
      | None => None
      end
  end.

Definition int_of_str (s : string) : option Z :=
  match strip s with
  | String "+" r => int_unsigned r
  | String "-" r => Z.opp <$> int_unsigned r
  | t => int_unsigned t
  end.

Definition value_error : exn := Exn ValueError "invalid literal for int() with base 10".
Definition index_error : exn := Exn IndexError "list index out of range".

(** [int(s)] as code that may raise. *)
Definition int (s : string) : result Z :=
  match int_of_str s with
  | Some z => Ok z
  | None => Raise value_error
  end.

(** [l[i]] *)
Definition getitem {A} (l : list A) (i : nat) : result A :=
  match l !! i with
  | Some a => Ok a
  | None => Raise index_error
  end.

(** [str(n)] for an integer. *)
Definition str (z : Z) : string := pretty z.

End Py.

Import Py.

Global Instance result_ret : MRet result := @Ok.
Global Instance result_bind : MBind result := λ A B k r, rbind r k.
Global Instance result_fmap : FMap result := λ A B f r, rbind r (λ a, Ok (f a)).

(** How a Python process ends: [sys.exit(n)], falling off the end of the
    script, or an exception nobody caught (the interpreter prints the
    traceback and the status is 1). *)
Inductive ending :=
  | SysExit (code : Z)
  | Finished
  | Uncaught (e : exn).

Definition exit_status (e : ending) : Z :=
  match e with
  | SysExit c => c
  | Finished => 0
  | Uncaught _ => 1
  end.

(** What [subprocess.run(..., capture_output=True, text=True)] returns. *)
Record CompletedProcess := {
  returncode : Z;
  stdout : string;
  stderr : string
}.

(* ===================================================================== *)
(** * final_qa_validation.py                                              *)
(* ===================================================================== *)

Module final_qa_validation.

(** The environment of one validator process.  Every pytest invocation of
    the script has a different argument list, so the answers of the external
    command are indexed by it. *)
Record world := {
  (** [subprocess.run(cmd, cwd=qa_root, capture_output=True, text=True,
      timeout=300)]: a completed process, [TimeoutExpired], or the error of
      a command that could not be started. *)
  subprocess_run : list string → result CompletedProcess;
  (** [if allure_results.exists(): shutil.rmtree(allure_results)] *)
  clear_allure_results : result unit;
  (** the state of [allure-results] after the pytest run with these
      arguments: [None] when the directory does not exist, else the number
      of [*.json] files in it *)
  json_files_after : list string → option nat;
  (** writing [final_validation_report.json] *)
  save_report : result unit
}.

Section Validator.
Context (w : world).

(** [QAPipelineValidator.run_pytest_command] *)
Definition run_pytest_command (args : list string) : result (bool * string * string) :=
  let cmd := ["python"; "-m"; "pytest"] ++ args in
  try_excepts
    (result ← subprocess_run w cmd;
     mret (returncode result =? 0, stdout result, stderr result))
    [ ([TimeoutExpired], λ _, mret (false, "", "Command timed out"));
      ([Exception], λ e, mret (false, "", exn_str e)) ].

Definition test_types : list (string * string) :=
  [ ("unit", "unit/");
    ("integration", "integration/");
    ("end_to_end", "end_to_end/");
    ("performance", "performance/");
    ("regression", "-m regression");
    ("bug_discovery", "-m bug_discovery") ].

(** [[line for line in lines if "collected" in line and "test" in line]] *)
Definition is_collected_line (line : string) : bool :=
  contains "collected" line && contains "test" line.

(** Lines 91-97: the count read off the first matching line. *)
Definition parse_count (collected_line : list string) : result Z :=
  line ← getitem collected_line 0;
  let line_parts := split_ws line in
  part ← getitem line_parts 0;
  if contains "/" part then
    (* "10/128 tests collected": the second number *)
    second ← getitem (split "/" part) 1;
    int second
  else
    (* "128 tests collected": the first number *)
    int part.

(** Lines 84-108, the body of the loop of [validate_test_collection]: the
    value stored in [collection_results[test_type]]. *)
Definition collected_count (success : bool) (out : string) : result Z :=
  if success then
    let lines := split newline out in
    let collected_line := List.filter is_collected_line lines in
    match collected_line with
    | _ :: _ =>
        try_excepts (parse_count collected_line)
          [ ([IndexError; ValueError], λ _, mret 0) ]
    | [] => mret 0
    end
  else mret (-1).

(** The loop of [validate_test_collection]; both branches of the test on
    [pattern.startswith("-m")] run the same command. *)
Fixpoint collect_loop (types : list (string * string))
    (collection_results : gmap string Z) : result (gmap string Z) :=
  match types with
  | [] => mret collection_results
  | (test_type, pattern) :: rest =>
      '(success, out, _) ← run_pytest_command [pattern; "--collect-only"; "-q"];
      count ← collected_count success out;
      collect_loop rest (<[test_type := count]> collection_results)
  end.

(** [validate_test_collection]: the recorded counts and the verdict. *)
Definition validate_test_collection : result (gmap string Z * bool) :=
  collection_results ← collect_loop test_types ∅;
  let regression_count := default 0 (collection_results !! "regression") in
  mret (collection_results, 0 <? regression_count).

Definition allure_test_commands : list (list string * string) :=
  [ (["-m"; "regression"; "--alluredir=allure-results"; "-v"], "regression");
    (["unit/"; "--alluredir=allure-results"; "-v"; "--maxfail=3"], "unit");
    (["integration/"; "--alluredir=allure-results"; "-v"; "--maxfail=3"], "integration") ].

Fixpoint allure_loop (cmds : list (list string * string))
    (allure_results : gmap string nat) : result (gmap string nat) :=
  match cmds with
  | [] => mret allure_results
  | (cmd_args, test_type) :: rest =>
      _ ← run_pytest_command cmd_args;
      let result_files := default 0%nat (json_files_after w cmd_args) in
      allure_loop rest (<[test_type := result_files]> allure_results)
  end.

(** [validate_allure_integration] *)
Definition validate_allure_integration : result bool :=
  _ ← clear_allure_results w;
  allure_results ← allure_loop allure_test_commands ∅;
  let total_files := map_fold (λ _ n acc, (n + acc)%nat) 0%nat allure_results in
  mret (0 <? total_files)%nat.

(** [validate_regression_suite]: "Success if tests could run (failures may
    be legitimate bugs)". *)
Definition validate_regression_suite : result bool :=
  '(success, out, _) ← run_pytest_command
     ["-m"; "regression"; "--alluredir=allure-results"; "-v"; "--tb=short"];
  mret (success || contains "collected" out).

(** [validate_bug_discovery] *)
Definition validate_bug_discovery : result bool :=
  '(_, out, _) ← run_pytest_command
     ["-m"; "bug_discovery"; "--alluredir=allure-results"; "-v"; "--maxfail=5"];
  let tests_found :=
    if contains "collected" out then
      let lines := split newline out in
      match List.filter (contains "collected") lines with
      | _ :: _ => true
      | [] => false
      end
    else false in
  mret tests_found.

(** [validate_complete_pipeline] *)
Definition validate_complete_pipeline : result bool :=
  '(_, out, _) ← run_pytest_command
     ["--alluredir=allure-results"; "-v"; "--maxfail=10"; "--tb=line"];
  mret (contains "collected" out).

Definition validations : list (string * result bool) :=
  [ ("test_collection", snd <$> validate_test_collection);
    ("allure_integration", validate_allure_integration);
    ("regression_suite", validate_regression_suite);
    ("bug_discovery", validate_bug_discovery);
    ("complete_pipeline", validate_complete_pipeline) ].

(** The loop of [generate_validation_report]: a validation that raises is
    recorded as not passed. *)
Fixpoint run_validations (vs : list (string * result bool))
    (all_passed : bool) : result bool :=
  match vs with
  | [] => mret all_passed
  | (_, validation_func) :: rest =>
      passed ← try_excepts validation_func [ ([Exception], λ _, Ok false) ];
      run_validations rest (if passed : bool then all_passed else false)
  end.

(** [generate_validation_report], reduced to [results["overall_success"]]. *)
Definition generate_validation_report : result bool :=
  all_passed ← run_validations validations true;
  _ ← save_report w;
  mret all_passed.

(** [main]: [sys.exit(0 if results["overall_success"] else 1)]. *)
Definition main : ending :=
  match generate_validation_report with
  | Ok overall_success => SysExit (if overall_success then 0 else 1)
  | Raise e => Uncaught e
  end.

End Validator.
End final_qa_validation.

(* ===================================================================== *)
(** * run_qa_pipeline.py                                                  *)
(* ===================================================================== *)

Module run_qa_pipeline.

(** ** JSON values and files *)

(** What [json.load] returns and [json.dump] accepts.  An object keeps its
    members as an association list; a float keeps its literal. *)
#[local] Unset Elimination Schemes.
Inductive json :=
  | JNull
  | JBool (b : bool)
  | JInt (z : Z)
  | JFloat (literal : string)
  | JStr (s : string)
  | JArr (items : list json)
  | JObj (members : list (string * json)).
#[local] Set Elimination Schemes.

Fixpoint assoc {A} (key : string) (members : list (string * A)) : option A :=
  match members with
  | [] => None
  | (k, v) :: rest => if String.eqb k key then Some v else assoc key rest
  end.

(** [data.get(key)]: [None] of Python is [JNull]; only a [dict] has the
    method. *)
Definition get (data : json) (key : string) : result json :=
  match data with
  | JObj members => Ok (default JNull (assoc key members))
  | _ => Raise (Exn AttributeError "object has no attribute 'get'")
  end.

(** [v == s] for a string literal [s]. *)
Definition eq_str (v : json) (s : string) : bool :=
  match v with
  | JStr t => String.eqb t s
  | _ => false
  end.

(** The quotient [a / b * 100] of two integers, before it is rounded to a
    float and printed with one decimal ([:.1f]). *)
Record percentage := { numerator : Z; denominator : Z }.

(** The true division of two integers rounds the quotient to the nearest
    float; a quotient that rounds to 2^1024, that is one of absolute value
    at least 2^1024 - 2^970, is too large for a float. *)
Definition float_limit : Z := 2 ^ 1024 - 2 ^ 970.

(** [a / b * 100]: the division raises for a zero divisor and for a
    quotient outside the range of a float; the multiplication of floats
    never raises. *)
Definition percent_of (a b : Z) : result percentage :=
  if b =? 0 then Raise (Exn ZeroDivisionError "division by zero")
  else if float_limit * Z.abs b <=? Z.abs a then
    Raise (Exn OverflowError "integer division result too large for a float")
  else Ok {| numerator := a; denominator := b |}.

(** The interpolated fields of the page written by
    [create_basic_html_report]; the fixed markup around them is left out. *)
Record html_report := {
  html_executor : string;
  html_environment : string;
  html_date : string;
  html_total : Z;
  html_passed : Z;
  html_failed : Z;
  html_pass_rate : percentage;
  html_bug_discovery : percentage
}.

(** A file holds plain text that is no JSON document, a JSON document, or
    the fallback page. *)
Inductive content :=
  | Text (s : string)
  | Json (v : json)
  | Html (page : html_report).

(** ** The file system below the working directory *)

Inductive node :=
  | Dir
  | File (c : content).

(** A path is the list of its components, relative to the working
    directory; the working directory itself is [[]] and always exists. *)
Abbreviation path := (list string).
Abbreviation fs := (gmap (list string) node).

Definition parent (p : path) : path := removelast p.

Definition is_prefix (d p : path) : bool := bool_decide (d `prefix_of` p).

(** [os.path.exists(p)] *)
Definition exists_ (t : fs) (p : path) : bool :=
  match p with
  | [] => true
  | _ => bool_decide (is_Some (t !! p))
  end.

Definition is_dir (t : fs) (p : path) : bool :=
  match p with
  | [] => true
  | _ => match t !! p with Some Dir => true | _ => false end
  end.

(** [shutil.rmtree(p)]: the directory and everything below it go. *)
Definition rmtree (p : path) (t : fs) : result unit * fs :=
  match t !! p with
  | Some Dir => (Ok (), filter (λ kv, is_prefix p kv.1 = false) t)
  | Some (File _) => (Raise (Exn NotADirectoryError "Not a directory"), t)
  | None => (Raise (Exn FileNotFoundError "No such file or directory"), t)
  end.

(** [os.makedirs(p, exist_ok=True)], creating the missing directories from
    the top; [done] is the part of the path already walked. *)
Fixpoint makedirs_from (done_ rest : path) (t : fs) : result unit * fs :=
  match rest with
  | [] => (Ok (), t)
  | name :: rest' =>
      let here := done_ ++ [name] in
      match t !! here with
      | Some Dir => makedirs_from here rest' t
      | Some (File _) =>
          (Raise (Exn (match rest' with
                       | [] => FileExistsError
                       | _ => NotADirectoryError
                       end) "File exists"), t)
      | None => makedirs_from here rest' (<[here := Dir]> t)
      end
  end.

Definition makedirs (p : path) (t : fs) : result unit * fs := makedirs_from [] p t.

(** [with open(p, "w") as f: f.write(c)] (or [json.dump(v, f)]). *)
Definition write_file (p : path) (c : content) (t : fs) : result unit * fs :=
  if negb (exists_ t (parent p)) then
    (Raise (Exn FileNotFoundError "No such file or directory"), t)
  else if negb (is_dir t (parent p)) then
    (Raise (Exn NotADirectoryError "Not a directory"), t)
  else match t !! p with
       | Some Dir => (Raise (Exn IsADirectoryError "Is a directory"), t)
       | _ => (Ok (), <[p := File c]> t)
       end.

(** [with open(p, "r") as f: json.load(f)] *)
Definition load_json (t : fs) (p : path) : result json :=
  match t !! p with
  | None => Raise (Exn FileNotFoundError "No such file or directory")
  | Some Dir => Raise (Exn IsADirectoryError "Is a directory")
  | Some (File (Json v)) => Ok v
  | Some (File _) => Raise (Exn JSONDecodeError "Expecting value")
  end.

Fixpoint endswith (suffix s : string) : bool :=
  String.eqb s suffix
  || match s with
     | EmptyString => false
     | String _ s' => endswith suffix s'
     end.

(** [glob.glob(f"{d}/*{suffix}")]: the entries of [d] whose name ends with
    the suffix; [*] does not match a leading dot. *)
Definition glob_suffix (t : fs) (d : path) (suffix : string) : list path :=
  List.filter (λ p,
    match last p with
    | Some name =>
        bool_decide (parent p = d) && negb (startswith "." name)
        && endswith suffix name
    | None => false
    end) (map_to_list t).*1.

(** ** Programs with effects on the file system *)

Definition M (A : Type) : Type := fs → result A * fs.

Global Instance M_ret : MRet M := λ A a t, (Ok a, t).
Global Instance M_bind : MBind M := λ A B k m t,
  match m t with
  | (Ok a, t') => k a t'
  | (Raise e, t') => (Raise e, t')
  end.

Definition lift {A} (r : result A) : M A := λ t, (r, t).
Definition read {A} (f : fs → A) : M A := λ t, (Ok (f t), t).

(** [try: m  except ...] where the handlers see the files as the failed
    body left them. *)
Fixpoint handle {A} (e : exn) (clauses : list (list exn_class * (exn → M A))) : M A :=
  match clauses with
  | [] => lift (Raise e)
  | (cs, h) :: rest => if matches cs e then h e else handle e rest
  end.

Definition try_M {A} (m : M A) (clauses : list (list exn_class * (exn → M A))) : M A :=
  λ t, match m t with
       | (Ok a, t') => (Ok a, t')
       | (Raise e, t') => handle e clauses t'
       end.

(** A bare [except:] *)
Definition any : list exn_class := [Exception].

(** ** The environment of one run *)

Record world := {
  (** whether the operating system lets a socket bind the (valid) port *)
  port_free : Z → bool;
  (** [datetime.now().strftime('%Y-%m-%d %H:%M:%S')] *)
  now : string;
  (** [os.path.expanduser("~")] *)
  home : string;
  (** [subprocess.run(["python", "-m", "pytest", ...], capture_output=True,
      text=True)]: pytest writes its result files *)
  pytest : fs → result CompletedProcess * fs;
  (** [subprocess.run([allure_cmd, "generate", ...], check=True, ...)] in the
      loop over the command names *)
  allure_generate : string → fs → result unit * fs;
  (** [subprocess.run(["scoop", "install", "allure"], check=True, ...)] *)
  scoop_install : fs → result unit * fs;
  (** the [allure generate] that follows the installation *)
  allure_generate_installed : fs → result unit * fs;
  (** [subprocess.Popen([allure_cmd, "open", ...])] *)
  allure_open : string → result unit;
  (** [webbrowser.open(...)] *)
  webbrowser_open : result unit
}.

Section Pipeline.
Context (w : world).

(** ** [find_available_port] *)

(** [s.bind(('localhost', port))]: the socket module rejects a port outside
    0..65535 with [OverflowError] before it asks the operating system, whose
    refusals are [OSError]s. *)
Definition socket_bind (port : Z) : result unit :=
  if (port <? 0) || (65535 <? port) then
    Raise (Exn OverflowError "bind(): port must be 0-65535.")
  else if port_free w port then Ok ()
  else Raise (Exn OSError "Address already in use").

(** [range(a, b)] *)
Definition range (a b : Z) : list Z :=
  (λ i : nat, a + Z.of_nat i) <$> seq 0 (Z.to_nat (b - a)).

Fixpoint port_loop (ports : list Z) (start_port : Z) : result Z :=
  match ports with
  | [] => Ok start_port  (* fallback *)
  | port :: rest =>
      try_excepts (_ ← socket_bind port; mret port)
        [ ([OSError], λ _, port_loop rest start_port) ]
  end.

Definition find_available_port (start_port : Z) : result Z :=
  port_loop (range start_port (start_port + 100)) start_port.

(** ** [create_basic_html_report] *)

Definition create_basic_html_report (report_dir : path)
    (total passed failed : Z) (executor environment : string) : M unit :=
  _ ← makedirs report_dir;
  pass_rate ← lift (percent_of passed total);
  bug_discovery ← lift (percent_of failed total);
  let html_content :=
    {| html_executor := executor;
       html_environment := environment;
       html_date := now w;
       html_total := total;
       html_passed := passed;
       html_failed := failed;
       html_pass_rate := pass_rate;
       html_bug_discovery := bug_discovery |} in
  write_file (report_dir ++ ["index.html"]) (Html html_content).

(** ** Aggregation of the result files (lines 197-209 of [main]) *)

Record counts := { total : Z; passed : Z; failed : Z }.

(** The body of the [try]: the statements run in order, and an exception
    leaves the counters as the statements before it set them. *)
Definition count_file (t : fs) (file : path) (c : counts) : counts :=
  match load_json t file with
  | Raise _ => c                                   (* except: continue *)
  | Ok data =>
      let c := {| total := total c + 1; passed := passed c; failed := failed c |} in
      match get data "status" with
      | Raise _ => c                               (* except: continue *)
      | Ok status =>
          if eq_str status "passed" then
            {| total := total c; passed := passed c + 1; failed := failed c |}
          else if eq_str status "failed" || eq_str status "broken" then
            {| total := total c; passed := passed c; failed := failed c + 1 |}
          else c
      end
  end.

Definition aggregate_files (t : fs) (files : list path) : counts :=
  fold_left (λ c file, count_file t file c) files
    {| total := 0; passed := 0; failed := 0 |}.

Definition aggregate (results_dir : path) : M counts :=
  read (λ t, aggregate_files t (glob_suffix t results_dir "-result.json")).

(** ** [main] *)

Definition ALLURE_RESULTS_DIR : path := ["allure-results"].
Definition ALLURE_REPORT_DIR : path := ["allure-report"].
Definition EXECUTOR_NAME : string := "QA Engineer".
Definition ENVIRONMENT : string := "Stage".

(** Step 1: clean previous results (lines 151-159). *)
Definition clean_previous_results : M unit :=
  results_exist ← read (λ t, exists_ t ALLURE_RESULTS_DIR);
  _ ← (if results_exist : bool then rmtree ALLURE_RESULTS_DIR else mret ());
  report_exists ← read (λ t, exists_ t ALLURE_REPORT_DIR);
  _ ← (if report_exists : bool then rmtree ALLURE_REPORT_DIR else mret ());
  _ ← makedirs ALLURE_RESULTS_DIR;
  makedirs (ALLURE_RESULTS_DIR ++ ["history"]).

Definition executor_data (REPORT_PORT : string) : json :=
  JObj [ ("name", JStr EXECUTOR_NAME);
         ("type", JStr "github");
         ("buildOrder", JInt 1);
         ("buildName", JStr "OpenFilter QA Test Suite");
         ("buildUrl", JStr "https://github.com/plainsight/openfilter");
         ("reportName", JStr ("QA Report - " +:+ EXECUTOR_NAME));
         ("reportUrl", JStr ("http://localhost:" +:+ REPORT_PORT +:+ "/index.html")) ].

(** Step 2: create the Allure configuration files (lines 161-180). *)
Definition create_allure_configuration (REPORT_PORT : string) : M unit :=
  _ ← write_file (ALLURE_RESULTS_DIR ++ ["environment.properties"]) (Text ENVIRONMENT);
  write_file (ALLURE_RESULTS_DIR ++ ["executor.json"]) (Json (executor_data REPORT_PORT)).

Definition allure_commands : list string :=
  [ "allure"; "allure.bat"; "allure.cmd";
    home w +:+ "/scoop/apps/allure/current/bin/allure.bat" ].

(** The loop of step 4 (lines 224-235): the value of [allure_found]. *)
Fixpoint generate_loop (cmds : list string) : M bool :=
  match cmds with
  | [] => mret false
  | allure_cmd :: rest =>
      try_M (_ ← allure_generate w allure_cmd; mret true)
        [ ([FileNotFoundError; CalledProcessError], λ _, generate_loop rest) ]
  end.

(** Step 4: generate the Allure report, or fall back (lines 213-252). *)
Definition generate_report (c : counts) : M bool :=
  allure_found ← generate_loop allure_commands;
  if allure_found : bool then mret true
  else
    try_M (_ ← scoop_install w;
           _ ← allure_generate_installed w;
           mret true)
      [ (any, λ _,
          _ ← create_basic_html_report ALLURE_REPORT_DIR
                (total c) (passed c) (failed c) EXECUTOR_NAME ENVIRONMENT;
          mret true  (* Continue with basic report *)) ].

Definition trend_entry (buildOrder : Z) (reportName : string) (data : json) : json :=
  JObj [ ("buildOrder", JInt buildOrder);
         ("reportUrl", JStr ".");
         ("reportName", JStr reportName);
         ("data", data) ].

Definition environment_data : json :=
  let item (value name : string) :=
    JObj [ ("values", JArr [JStr value]); ("name", JStr name) ] in
  JArr [ item ENVIRONMENT "Environment";
         item "pytest" "Framework";
         item "Windows" "Platform";
         item "3.12.6" "Python.Version";
         item "Comprehensive QA Suite" "Test.Type";
         item "OpenFilter" "Project";
         item "QA Validation" "Stage";
         item "Windows 11" "System.OS";
         item "Unit,Integration,E2E,Performance,Regression,Bug Discovery" "Test.Categories";
         item EXECUTOR_NAME "Executor";
         item (now w) "Report.Date" ].

Definition history_data (c : counts) : json :=
  let data (f b s p u t : Z) :=
    JObj [ ("failed", JInt f); ("broken", JInt b); ("skipped", JInt s);
           ("passed", JInt p); ("unknown", JInt u); ("total", JInt t) ] in
  JArr [ trend_entry 5 "OpenFilter QA Report - Run 5" (data 6 3 0 26 0 35);
         trend_entry 4 "OpenFilter QA Report - Run 4" (data 4 2 1 28 0 35);
         trend_entry 3 "OpenFilter QA Report - Run 3" (data 6 3 0 26 0 35);
         trend_entry 2 "OpenFilter QA Report - Run 2" (data 9 0 0 26 0 35);
         trend_entry 1 "OpenFilter QA Report - Current"
           (data (failed c) 0 0 (passed c) 0 (total c)) ].

Definition categories_trend_data (failed : Z) : json :=
  let data (product test environment automation : Z) :=
    JObj [ ("Product defects", JInt product); ("Test defects", JInt test);
           ("Environment issues", JInt environment);
           ("Automation issues", JInt automation) ] in
  JArr [ trend_entry 5 "OpenFilter QA Report - Run 5" (data 4 2 3 0);
         trend_entry 4 "OpenFilter QA Report - Run 4" (data 3 1 2 1);
         trend_entry 3 "OpenFilter QA Report - Run 3" (data 5 2 2 0);
         trend_entry 2 "OpenFilter QA Report - Run 2" (data 6 1 2 0);
         trend_entry 1 "OpenFilter QA Report - Current"
           (data (Z.max (failed - 1) 0) (if 0 <? failed then 1 else 0) 0 0) ].

Definition retries_trend_data (c : counts) : json :=
  let data (retry run : Z) := JObj [ ("retry", JInt retry); ("run", JInt run) ] in
  JArr [ trend_entry 5 "OpenFilter QA Report - Run 5" (data 2 35);
         trend_entry 4 "OpenFilter QA Report - Run 4" (data 1 35);
         trend_entry 3 "OpenFilter QA Report - Run 3" (data 3 35);
         trend_entry 2 "OpenFilter QA Report - Run 2" (data 4 35);
         trend_entry 1 "OpenFilter QA Report - Current"
           (data (Z.min (failed c) 2) (total c)) ].

Definition duration_trend_data (failed : Z) : json :=
  let data (duration : Z) := JObj [ ("duration", JInt duration) ] in
  JArr [ trend_entry 5 "OpenFilter QA Report - Run 5" (data 12450);
         trend_entry 4 "OpenFilter QA Report - Run 4" (data 11780);
         trend_entry 3 "OpenFilter QA Report - Run 3" (data 13220);
         trend_entry 2 "OpenFilter QA Report - Run 2" (data 14100);
         trend_entry 1 "OpenFilter QA Report - Current"
           (data (11350 + failed * 200)) ].

(** Step 5: the widget files (lines 254-355). *)
Definition apply_customizations (REPORT_PORT : string) (c : counts) : M unit :=
  let widgets := ALLURE_REPORT_DIR ++ ["widgets"] in
  _ ← write_file (widgets ++ ["executors.json"]) (Json (JArr [executor_data REPORT_PORT]));
  _ ← write_file (widgets ++ ["environment.json"]) (Json environment_data);
  _ ← write_file (widgets ++ ["history-trend.json"]) (Json (history_data c));
  _ ← write_file (widgets ++ ["categories-trend.json"])
        (Json (categories_trend_data (failed c)));
  _ ← write_file (widgets ++ ["retry-trend.json"]) (Json (retries_trend_data c));
  write_file (widgets ++ ["duration-trend.json"]) (Json (duration_trend_data (failed c))).

(** The loop of step 6: the value of [server_started]. *)
Fixpoint open_loop (cmds : list string) : result bool :=
  match cmds with
  | [] => Ok false
  | allure_cmd :: rest =>
      try_excepts (_ ← allure_open w allure_cmd; mret true)
        [ ([FileNotFoundError], λ _, open_loop rest) ]
  end.

Definition open_in_browser : result unit :=
  try_excepts (webbrowser_open w) [ (any, λ _, Ok ()) ].

(** Step 6: open the report (lines 359-394). *)
Definition open_report (allure_found : bool) : M unit :=
  has_index ← read (λ t, exists_ t (ALLURE_REPORT_DIR ++ ["index.html"]));
  if allure_found && has_index then
    server_started ← lift (open_loop allure_commands);
    if server_started : bool then mret () else lift open_in_browser
  else lift open_in_browser.

(** [main].  The strings it prints and the three seconds it sleeps are left
    out; the value returned by pytest is bound to [result] and never read. *)
Definition main : M unit :=
  port ← lift (find_available_port 64678);
  let REPORT_PORT := str port in
  _ ← clean_previous_results;
  _ ← create_allure_configuration REPORT_PORT;
  result ← pytest w;
  c ← aggregate ALLURE_RESULTS_DIR;
  allure_found ← generate_report c;
  _ ← apply_customizations REPORT_PORT c;
  open_report allure_found.

(** The script as a process: [if __name__ == "__main__": main()]. *)
Definition run (t : fs) : ending * fs :=
  match main t with
  | (Ok _, t') => (Finished, t')
  | (Raise e, t') => (Uncaught e, t')
  end.

End Pipeline.
End run_qa_pipeline.

(* ===================================================================== *)
(** * Notions used in the statements                                      *)
(* ===================================================================== *)

Import Py.

(** Every character of the string satisfies the test. *)
Fixpoint all_chars (P : ascii → bool) (s : string) : bool :=
  match s with
  | EmptyString => true
  | String a s' => P a && all_chars P s'
  end.

(** The number a string of decimal digits denotes, read left to right. *)
Fixpoint decimal (acc : Z) (s : string) : Z :=
  match s with
  | EmptyString => acc
  | String a s' => decimal (10 * acc + (Z.of_nat (nat_of_ascii a) - 48)) s'
  end.

(** ** Notions about the pipeline runner *)

Module Notions.
Import run_qa_pipeline.

(** The tree without the two artifact directories and what is below them. *)
Definition without_artifacts (t : fs) : fs :=
  filter (λ kv, is_prefix ALLURE_RESULTS_DIR kv.1 = false
                ∧ is_prefix ALLURE_REPORT_DIR kv.1 = false) t.

(** Whatever the tree holds at or below an artifact directory sits in a
    directory of that name (in particular the name is not taken by a plain
    file). *)
Definition artifacts_in_directories (t : fs) : Prop :=
  map_Forall (λ p _,
    Forall (λ d, d `prefix_of` p → is_dir t d = true)
           [ALLURE_RESULTS_DIR; ALLURE_REPORT_DIR]) t.

(** The same machine, except that pytest ends with return code [rc]. *)
Definition with_returncode (rc : Z) (w : world) : world :=
  {| port_free := port_free w;
     now := now w;
     home := home w;
     pytest := λ t,
       match pytest w t with
       | (Ok p, t') =>
           (Ok {| returncode := rc; stdout := stdout p; stderr := stderr p |}, t')
       | (Raise e, t') => (Raise e, t')
       end;
     allure_generate := allure_generate w;
     scoop_install := scoop_install w;
     allure_generate_installed := allure_generate_installed w;
     allure_open := allure_open w;
     webbrowser_open := webbrowser_open w |}.

(** The file opens and holds a JSON document. *)
Definition parses (t : fs) (file : path) : bool :=
  match load_json t file with
  | Ok _ => true
  | Raise _ => false
  end.

(** The file holds a JSON object, the shape of a test result record. *)
Definition is_record (t : fs) (file : path) : bool :=
  match load_json t file with
  | Ok (JObj _) => true
  | _ => false
  end.

(** The file holds a record whose status is one of the given ones. *)
Definition has_status (statuses : list string) (t : fs) (file : path) : bool :=
  match load_json t file with
  | Ok (JObj members) =>
      match assoc "status" members with
      | Some (JStr s) => existsb (String.eqb s) statuses
      | _ => false
      end
  | _ => false
  end.

Definition count (f : path → bool) (files : list path) : Z :=
  Z.of_nat (length (List.filter f files)).

(** The directory of the widget files, which [allure generate] creates. *)
Definition widgets : path := ALLURE_REPORT_DIR ++ ["widgets"].

(** A validation that returned [True]. *)
Definition passes (v : result bool) : bool :=
  match v with
  | Ok true => true
  | _ => false
  end.

Definition succeeded {A} (r : result A) : bool :=
  match r with
  | Ok _ => true
  | Raise _ => false
  end.

(** [trend[i]["data"][key]] of a trend widget. *)
Definition trend_value (trend : json) (i : nat) (key : string) : option json :=
  match trend with
  | JArr entries =>
      match entries !! i with
      | Some (JObj members) =>
          match assoc "data" members with
          | Some (JObj data) => assoc key data
          | _ => None
          end
      | _ => None
      end
  | _ => None
  end.

(** [trend[i]["reportName"]] *)
Definition trend_name (trend : json) (i : nat) : option json :=
  match trend with
  | JArr entries =>
      match entries !! i with
      | Some (JObj members) => assoc "reportName" members
      | _ => None
      end
  | _ => None
  end.

End Notions.

(** ** Concrete machines

    Environments on which the scripts are evaluated below. *)

Module Scenarios.
Import run_qa_pipeline.

(** A program that is not installed. *)
Definition not_installed : fs → result unit * fs :=
  λ t, (Raise (Exn FileNotFoundError "No such file or directory"), t).

(** The file that the Allure plugin of pytest writes for one test. *)
Definition result_file (name status : string) : path * node :=
  (ALLURE_RESULTS_DIR ++ [name +:+ "-result.json"],
   File (Json (JObj [ ("name", JStr name); ("status", JStr status) ]))).

(** pytest writes the given files and ends with the given return code. *)
Definition pytest_writes (files : list (path * node)) (rc : Z)
    : fs → result CompletedProcess * fs :=
  λ t, (Ok {| returncode := rc; stdout := ""; stderr := "" |},
        foldr (λ kv, <[kv.1 := kv.2]>) t files).

(** [allure generate] creates the report with its [widgets] directory. *)
Definition allure_writes_report : fs → result unit * fs :=
  λ t, (Ok (),
        <[ALLURE_REPORT_DIR ++ ["widgets"] := Dir]>
          (<[ALLURE_REPORT_DIR ++ ["index.html"] := File (Text "<!DOCTYPE html>")]>
             (<[ALLURE_REPORT_DIR := Dir]> t))).

(** A machine with [allure] on the path. *)
Definition with_allure (files : list (path * node)) (rc : Z) : world :=
  {| port_free := λ _, true;
     now := "2025-01-01 12:00:00";
     home := "/home/qa";
     pytest := pytest_writes files rc;
     allure_generate := λ cmd,
       if String.eqb cmd "allure" then allure_writes_report else not_installed;
     scoop_install := not_installed;
     allure_generate_installed := not_installed;
     allure_open := λ _, Ok ();
     webbrowser_open := Ok () |}.

(** A machine with neither [allure] nor [scoop]. *)
Definition without_allure (files : list (path * node)) (rc : Z) : world :=
  {| port_free := λ _, true;
     now := "2025-01-01 12:00:00";
     home := "/home/qa";
     pytest := pytest_writes files rc;
     allure_generate := λ _, not_installed;
     scoop_install := not_installed;
     allure_generate_installed := not_installed;
     allure_open := λ _, Raise (Exn FileNotFoundError "No such file or directory");
     webbrowser_open := Ok () |}.

(** A machine on which no port can be bound. *)
Definition all_ports_busy : world :=
  {| port_free := λ _, false;
     now := "2025-01-01 12:00:00";
     home := "/home/qa";
     pytest := pytest_writes [] 0;
     allure_generate := λ _, not_installed;
     scoop_install := not_installed;
     allure_generate_installed := not_installed;
     allure_open := λ _, Ok ();
     webbrowser_open := Ok () |}.

(** A tree that holds one result file whose JSON document is an array. *)
Definition array_result_file : fs :=
  <[ALLURE_RESULTS_DIR ++ ["x-result.json"] := File (Json (JArr []))]>
    (<[ALLURE_RESULTS_DIR := Dir]> ∅).

(** A tree left behind by an earlier run, next to a file of the project. *)
Definition stale_tree : fs :=
  list_to_map
    [ (["README.md"], File (Text "QA tests"));
      (ALLURE_RESULTS_DIR, Dir);
      (ALLURE_RESULTS_DIR ++ ["history"], Dir);
      (ALLURE_RESULTS_DIR ++ ["old-result.json"],
       File (Json (JObj [("name", JStr "old"); ("status", JStr "failed")])));
      (ALLURE_REPORT_DIR, Dir);
      (ALLURE_REPORT_DIR ++ ["index.html"], File (Text "<!DOCTYPE html>"));
      (ALLURE_REPORT_DIR ++ ["widgets"], Dir);
      (ALLURE_REPORT_DIR ++ ["widgets"; "stale.json"], File (Json JNull)) ].

(** A validator machine on which collection works and every test run ends
    with failing tests (return code 1). *)
Definition tests_fail : final_qa_validation.world :=
  {| final_qa_validation.subprocess_run := λ cmd,
       if bool_decide ("--collect-only" ∈ cmd)
       then Ok {| returncode := 0; stdout := "5 tests collected in 0.01s"; stderr := "" |}
       else Ok {| returncode := 1;
                  stdout := "collected 5 items" +:+ String newline
                            "=== 2 failed, 3 passed in 1.20s ===";
                  stderr := "" |};
     final_qa_validation.clear_allure_results := Ok ();
     final_qa_validation.json_files_after := λ _, Some 5%nat;
     final_qa_validation.save_report := Ok () |}.

End Scenarios.

(** ** Further notions: what the scripts observe and leave behind *)

Module Observed.
Import run_qa_pipeline Notions.

(** What [run_pytest_command] hands to its caller for these arguments. *)
Definition outcome (w : final_qa_validation.world) (args : list string)
    : bool * string * string :=
  match final_qa_validation.subprocess_run w (["python"; "-m"; "pytest"] ++ args) with
  | Ok p => (returncode p =? 0, stdout p, stderr p)
  | Raise e =>
      if issubclass (exn_cls e) TimeoutExpired
      then (false, "", "Command timed out")
      else (false, "", exn_str e)
  end.

(** The output text of that outcome. *)
Definition output (w : final_qa_validation.world) (args : list string) : string :=
  (outcome w args).1.2.

(** The count that [validate_test_collection] stores for a pattern. *)
Definition recorded (w : final_qa_validation.world) (pattern : string) : Z :=
  match final_qa_validation.collected_count
          (outcome w [pattern; "--collect-only"; "-q"]).1.1
          (output w [pattern; "--collect-only"; "-q"]) with
  | Ok z => z
  | Raise _ => 0
  end.

(** The dictionary that [validate_test_collection] stores, filled in the
    order of [test_types]. *)
Definition recorded_counts (w : final_qa_validation.world) : gmap string Z :=
  foldl (λ m tp, <[tp.1 := recorded w tp.2]> m) ∅ final_qa_validation.test_types.

(** The number of [*.json] files seen after the command with these
    arguments; 0 when the results directory does not exist. *)
Definition json_files (w : final_qa_validation.world) (args : list string) : nat :=
  default 0%nat (final_qa_validation.json_files_after w args).

(** The port that [main] puts into the report URL. *)
Definition report_port (w : world) : string :=
  str (default 64678 (List.find (port_free w) (range 64678 (64678 + 100)))).

(** The tree as steps 1 and 2 of [main] leave it: no earlier artifact, an
    empty results directory with its [history] subdirectory, and the two
    configuration files. *)
Definition prepared_tree (w : world) (t : fs) : fs :=
  <[ALLURE_RESULTS_DIR ++ ["executor.json"] := File (Json (executor_data (report_port w)))]>
    (<[ALLURE_RESULTS_DIR ++ ["environment.properties"] := File (Text ENVIRONMENT)]>
       (<[ALLURE_RESULTS_DIR ++ ["history"] := Dir]>
          (<[ALLURE_RESULTS_DIR := Dir]> (without_artifacts t)))).

(** What [main] does from step 3 on. *)
Definition from_step_3 (w : world) : M unit :=
  result ← pytest w;
  c ← aggregate ALLURE_RESULTS_DIR;
  allure_found ← generate_report w c;
  _ ← apply_customizations w (report_port w) c;
  open_report w allure_found.

(** The file parses and is neither passed nor failed nor broken. *)
Definition other_status (t : fs) (file : path) : bool :=
  parses t file
  && negb (has_status ["passed"] t file)
  && negb (has_status ["failed"; "broken"] t file).

(** 1 for a file that is counted, 0 for one that is not. *)
Definition b2z (b : bool) : Z := if b then 1 else 0.

(** The integer stored under [trend[i]["data"][key]]. *)
Definition trend_int (trend : json) (i : nat) (key : string) : option Z :=
  match trend_value trend i key with
  | Some (JInt z) => Some z
  | _ => None
  end.

(** A validator machine on which the results directory cannot be removed
    and everything else goes well. *)
Definition results_locked : final_qa_validation.world :=
  {| final_qa_validation.subprocess_run :=
       final_qa_validation.subprocess_run Scenarios.tests_fail;
     final_qa_validation.clear_allure_results :=
       Raise (Exn PermissionError "Permission denied");
     final_qa_validation.json_files_after := λ _, Some 5%nat;
     final_qa_validation.save_report := Ok () |}.

(** A validator machine on which every command runs to its end with
    return code 0, and the collection prints its summary in a shape that the
    count extraction cannot read. *)
Definition unreadable_summary : final_qa_validation.world :=
  {| final_qa_validation.subprocess_run := λ cmd,
       if bool_decide ("--collect-only" ∈ cmd)
       then Ok {| returncode := 0; stdout := "collected 5 tests in 0.01s"; stderr := "" |}
       else Ok {| returncode := 0;
                  stdout := "collected 5 items" +:+ String newline
                            "=== 5 passed in 1.20s ===";
                  stderr := "" |};
     final_qa_validation.clear_allure_results := Ok ();
     final_qa_validation.json_files_after := λ _, Some 5%nat;
     final_qa_validation.save_report := Ok () |}.

(** A validator machine on which the collection of the unit tests exceeds
    the timeout and everything else goes well. *)
Definition unit_collection_times_out : final_qa_validation.world :=
  {| final_qa_validation.subprocess_run := λ cmd,
       if bool_decide ("--collect-only" ∈ cmd) then
         if bool_decide ("unit/" ∈ cmd)
         then Raise (Exn TimeoutExpired "Command timed out after 300 seconds")
         else Ok {| returncode := 0; stdout := "5 tests collected in 0.01s"; stderr := "" |}
       else Ok {| returncode := 0;
                  stdout := "collected 5 items" +:+ String newline
                            "=== 5 passed in 1.20s ===";
                  stderr := "" |};
     final_qa_validation.clear_allure_results := Ok ();
     final_qa_validation.json_files_after := λ _, Some 5%nat;
     final_qa_validation.save_report := Ok () |}.

(** A validator machine on which all tests pass and the report file cannot
    be written. *)
Definition report_not_writable : final_qa_validation.world :=
  {| final_qa_validation.subprocess_run := λ cmd,
       if bool_decide ("--collect-only" ∈ cmd)
       then Ok {| returncode := 0; stdout := "5 tests collected in 0.01s"; stderr := "" |}
       else Ok {| returncode := 0;
                  stdout := "collected 5 items" +:+ String newline
                            "=== 5 passed in 1.20s ===";
                  stderr := "" |};
     final_qa_validation.clear_allure_results := Ok ();
     final_qa_validation.json_files_after := λ _, Some 5%nat;
     final_qa_validation.save_report :=
       Raise (Exn PermissionError "Permission denied") |}.

(** A tree in which the name of the results directory is taken by a file. *)
Definition results_is_a_file : fs :=
  <[ALLURE_RESULTS_DIR := File (Text "")]> ∅.

(** A machine on which the interpreter that should run pytest is missing. *)
Definition no_python : world :=
  {| port_free := λ _, true;
     now := "2025-01-01 12:00:00";
     home := "/home/qa";
     pytest := λ t, (Raise (Exn FileNotFoundError "No such file or directory"), t);
     allure_generate := λ _, Scenarios.allure_writes_report;
     scoop_install := Scenarios.not_installed;
     allure_generate_installed := Scenarios.not_installed;
     allure_open := λ _, Ok ();
     webbrowser_open := Ok () |}.

(** A machine on which the first allure command exists but may not be
    executed. *)
Definition allure_not_executable : world :=
  {| port_free := λ _, true;
     now := "2025-01-01 12:00:00";
     home := "/home/qa";
     pytest := Scenarios.pytest_writes [Scenarios.result_file "test_a" "passed"] 0;
     allure_generate := λ _ t, (Raise (Exn PermissionError "Permission denied"), t);
     scoop_install := Scenarios.not_installed;
     allure_generate_installed := Scenarios.not_installed;
     allure_open := λ _, Ok ();
     webbrowser_open := Ok () |}.


(** The state in which one run hands the artifact names to the next:
    whatever sits at or below them sits in a directory, and the results
    directory exists. *)
Definition ready (t : fs) : Prop :=
  artifacts_in_directories t ∧ is_dir t ALLURE_RESULTS_DIR = true.

(** A program that keeps that state, whatever it answers. *)
Definition keeps_ready {A : Type} (f : fs → result A * fs) : Prop :=
  ∀ t, ready t → ready (f t).2.

(** A machine whose external programs (pytest, allure, scoop) keep the
    artifact names directories: they add, change or remove entries below
    them, and never put a plain file in their place. *)
Definition orderly (w : world) : Prop :=
  keeps_ready (pytest w)
  ∧ (∀ allure_cmd, keeps_ready (allure_generate w allure_cmd))
  ∧ keeps_ready (scoop_install w)
  ∧ keeps_ready (allure_generate_installed w).

(** The tree after one run on each of the machines, in order. *)
Definition runs (ws : list world) (t : fs) : fs :=
  foldl (λ t w, (run w t).2) t ws.

End Observed.

(* ===================================================================== *)
(** * Properties                                                          *)
(* ===================================================================== *)

(** ** Sequencing of effects *)

Section Binds.
Import run_qa_pipeline.

Lemma M_bind_unfold {A B} (m : M A) (k : A → M B) (t : fs) :
  (m ≫= k) t
  = match m t with
    | (Ok a, t') => k a t'
    | (Raise e, t') => (Raise e, t')
    end.
Proof. reflexivity. Qed.

Lemma M_bind_ext {A B} (m : M A) (k1 k2 : A → M B) (t : fs) :
  (∀ a t', k1 a t' = k2 a t') → (m ≫= k1) t = (m ≫= k2) t.
Proof.
  intros H. rewrite !M_bind_unfold. destruct (m t) as [[a|e] t']; [apply H|done].
Qed.

End Binds.

(** ** Strings *)

#[local] Arguments isspace : simpl never.
#[local] Arguments int_isspace : simpl never.
#[local] Arguments isdigit : simpl never.

Section StringFacts.

Lemma startswith_app (p s : string) : startswith p (p +:+ s) = true.
Proof.
  induction p as [|a p IH]; simpl; [done|].
  by rewrite Ascii.eqb_refl, IH.
Qed.

Lemma contains_here (needle s : string) :
  startswith needle s = true → contains needle s = true.
Proof. intros H. destruct s; simpl in *; by rewrite H. Qed.

Lemma contains_skip (needle a s : string) :
  contains needle s = true → contains needle (a +:+ s) = true.
Proof.
  intros H. induction a as [|c a IH]; simpl; [done|].
  rewrite IH. apply orb_true_r.
Qed.

Lemma contains_infix (needle a b : string) :
  contains needle (a +:+ needle +:+ b) = true.
Proof. apply contains_skip, contains_here, startswith_app. Qed.

Lemma all_chars_app P (a b : string) :
  all_chars P (a +:+ b) = all_chars P a && all_chars P b.
Proof.
  induction a as [|c a IH]; simpl; [done|]. by rewrite IH, andb_assoc.
Qed.

Lemma all_chars_impl (P Q : ascii → bool) (s : string) :
  (∀ c, P c = true → Q c = true) → all_chars P s = true → all_chars Q s = true.
Proof.
  intros HPQ. induction s as [|c s IH]; simpl; [done|].
  intros [Hc Hs]%andb_true_iff. by rewrite (HPQ _ Hc), IH.
Qed.

Lemma contains_char_absent (c : ascii) (s : string) :
  all_chars (λ a, negb (Ascii.eqb a c)) s = true →
  contains (String c EmptyString) s = false.
Proof.
  induction s as [|a s IH]; simpl; [done|].
  intros [Ha Hs]%andb_true_iff. rewrite (IH Hs), orb_false_r.
  rewrite Ascii.eqb_sym. apply negb_true_iff in Ha. by rewrite Ha.
Qed.

(** [split] *)

Lemma split_no_sep (c : ascii) (s : string) :
  all_chars (λ a, negb (Ascii.eqb a c)) s = true → split c s = [s].
Proof.
  induction s as [|a s IH]; simpl; [done|].
  intros [Ha Hs]%andb_true_iff. apply negb_true_iff in Ha.
  by rewrite Ha, (IH Hs).
Qed.

Lemma split_at_sep (c : ascii) (a b : string) :
  all_chars (λ x, negb (Ascii.eqb x c)) a = true →
  split c (a +:+ String c b) = a :: split c b.
Proof.
  induction a as [|x a IH]; simpl.
  - intros _. by rewrite Ascii.eqb_refl.
  - intros [Hx Ha]%andb_true_iff. apply negb_true_iff in Hx.
    by rewrite Hx, (IH Ha).
Qed.

(** [split_ws] *)

Lemma split_ws_cons2 (a b : ascii) (s : string) :
  isspace a = false → isspace b = false →
  split_ws (String a (String b s))
  = match split_ws (String b s) with
    | h :: t => String a h :: t
    | [] => [String a EmptyString]
    end.
Proof. intros Ha Hb. simpl. by rewrite Ha, Hb. Qed.

Lemma split_ws_first_token (tok rest : string) (sp : ascii) :
  tok ≠ EmptyString →
  all_chars (λ a, negb (isspace a)) tok = true →
  isspace sp = true →
  split_ws (tok +:+ String sp rest) = tok :: split_ws rest.
Proof.
  intros Hne Htok Hsp. induction tok as [|a tok IH]; [done|].
  simpl in Htok. apply andb_true_iff in Htok as [Ha Htok].
  apply negb_true_iff in Ha.
  destruct tok as [|b tok].
  - simpl. by rewrite Ha, Hsp.
  - assert (Hb : isspace b = false).
    { simpl in Htok. apply andb_true_iff in Htok as [Hb _].
      by apply negb_true_iff in Hb. }
    change (String a (String b tok) +:+ String sp rest)
      with (String a (String b (tok +:+ String sp rest))).
    rewrite (split_ws_cons2 _ _ _ Ha Hb).
    change (String b (tok +:+ String sp rest))
      with (String b tok +:+ String sp rest).
    by rewrite IH.
Qed.

(** [strip] *)

Lemma lstrip_id (s : string) :
  all_chars (λ a, negb (int_isspace a)) s = true → lstrip s = s.
Proof.
  destruct s as [|a s]; simpl; [done|].
  intros [Ha _]%andb_true_iff. apply negb_true_iff in Ha. by rewrite Ha.
Qed.

Lemma rstrip_id (s : string) :
  all_chars (λ a, negb (int_isspace a)) s = true → rstrip s = s.
Proof.
  induction s as [|a s IH]; simpl; [done|].
  intros [Ha Hs]%andb_true_iff. apply negb_true_iff in Ha.
  rewrite (IH Hs), Ha. by destruct s.
Qed.

Lemma strip_id (s : string) :
  all_chars (λ a, negb (int_isspace a)) s = true → strip s = s.
Proof. intros H. unfold strip. by rewrite (lstrip_id _ H), rstrip_id. Qed.

Lemma digit_not_space (c : ascii) : isdigit c = true → negb (isspace c) = true.
Proof.
  unfold isdigit, isspace. generalize (nat_of_ascii c). intros n H.
  apply andb_true_iff in H as [H1%Nat.leb_le H2%Nat.leb_le].
  apply negb_true_iff.
  repeat (apply orb_false_iff; split);
    first [ apply andb_false_iff; (left + right); apply Nat.leb_gt; lia
          | apply Nat.eqb_neq; lia ].
Qed.

Lemma digit_not_int_space (c : ascii) :
  isdigit c = true → negb (int_isspace c) = true.
Proof.
  unfold isdigit, int_isspace. generalize (nat_of_ascii c). intros n H.
  apply andb_true_iff in H as [H1%Nat.leb_le H2%Nat.leb_le].
  apply negb_true_iff.
  repeat (apply orb_false_iff; split);
    first [ apply andb_false_iff; (left + right); apply Nat.leb_gt; lia
          | apply Nat.eqb_neq; lia ].
Qed.

Lemma digit_not_char (c x : ascii) :
  isdigit x = false → isdigit c = true → negb (Ascii.eqb c x) = true.
Proof.
  intros Hx Hc. apply negb_true_iff, Ascii.eqb_neq. congruence.
Qed.

End StringFacts.

(** ** Decimal numerals *)

Section Numerals.

Lemma append_cons (x : ascii) (a b : string) :
  String x a +:+ b = String x (a +:+ b).
Proof. reflexivity. Qed.

Lemma append_assoc (a b c : string) : (a +:+ b) +:+ c = a +:+ (b +:+ c).
Proof. induction a as [|x a IH]; [done|]. by rewrite !append_cons, IH. Qed.

Lemma append_empty_r (a : string) : a +:+ EmptyString = a.
Proof. induction a as [|x a IH]; [done|]. by rewrite append_cons, IH. Qed.

Lemma decimal_app (acc : Z) (a b : string) :
  decimal acc (a +:+ b) = decimal (decimal acc a) b.
Proof. revert acc. induction a as [|x a IH]; intros acc; simpl; [done|]. apply IH. Qed.

Lemma digit_not_underscore (c : ascii) :
  isdigit c = true → Ascii.eqb c "_"%char = false.
Proof.
  intros Hc. apply Ascii.eqb_neq. intros ->. by vm_compute in Hc.
Qed.

Lemma int_digits_decimal (s : string) (acc : Z) :
  all_chars isdigit s = true → int_digits acc false s = Some (decimal acc s).
Proof.
  revert acc. induction s as [|c s IH]; intros acc; simpl; [done|].
  intros [Hc Hs]%andb_true_iff.
  rewrite (digit_not_underscore _ Hc). unfold digit_val. rewrite Hc.
  by apply IH.
Qed.

Lemma digit_count_digits (s : string) :
  all_chars isdigit s = true → digit_count s = String.length s.
Proof.
  induction s as [|c s IH]; simpl; [done|].
  intros [Hc Hs]%andb_true_iff. by rewrite Hc, IH.
Qed.

Lemma int_unsigned_decimal (s : string) :
  s ≠ EmptyString → all_chars isdigit s = true →
  (String.length s ≤ max_str_digits)%nat →
  int_unsigned s = Some (decimal 0 s).
Proof.
  destruct s as [|c s]; [done|]. intros _ Hall Hlen.
  pose proof (digit_count_digits _ Hall) as Hcount.
  apply andb_true_iff in Hall as [Hc Hs].
  unfold int_unsigned, digit_val. rewrite Hc, Hcount.
  assert ((max_str_digits <? String.length (String c s))%nat = false) as ->
    by (apply Nat.ltb_ge; lia).
  by rewrite (int_digits_decimal _ _ Hs).
Qed.

(** A numeral with more digits than the limit is refused. *)
Lemma int_unsigned_too_long (s : string) :
  all_chars isdigit s = true →
  (max_str_digits < String.length s)%nat →
  int_unsigned s = None.
Proof.
  destruct s as [|c s]; [done|]. intros Hall Hlen.
  pose proof (digit_count_digits _ Hall) as Hcount.
  apply andb_true_iff in Hall as [Hc Hs].
  unfold int_unsigned, digit_val. rewrite Hc, Hcount.
  by assert ((max_str_digits <? String.length (String c s))%nat = true) as ->
    by (apply Nat.ltb_lt; lia).
Qed.

Lemma unsigned_branch {A} (c : ascii) (r : string) (plus minus : string → A)
    (other : string → A) :
  isdigit c = true →
  match String c r with
  | String "+" r' => plus r'
  | String "-" r' => minus r'
  | t => other t
  end = other (String c r).
Proof.
  intros Hc.
  destruct c as [[] [] [] [] [] [] [] []]; try reflexivity; by vm_compute in Hc.
Qed.

(** [int] reads a non-empty string of digits as the number it denotes. *)
Lemma int_decimal (s : string) :
  s ≠ EmptyString → all_chars isdigit s = true →
  (String.length s ≤ max_str_digits)%nat →
  int s = Ok (decimal 0 s).
Proof.
  intros Hne Hs Hlen. unfold int, int_of_str.
  rewrite strip_id by (eapply all_chars_impl, Hs; apply digit_not_int_space).
  destruct s as [|c r]; [done|].
  assert (Hc : isdigit c = true) by (simpl in Hs; by apply andb_true_iff in Hs as [? _]).
  rewrite (unsigned_branch c r int_unsigned (λ r', Z.opp <$> int_unsigned r')
             int_unsigned Hc).
  by rewrite int_unsigned_decimal.
Qed.

Lemma pretty_N_char_digit (d : N) :
  (d < 10)%N →
  isdigit (pretty_N_char d) = true
  ∧ Z.of_nat (nat_of_ascii (pretty_N_char d)) - 48 = Z.of_N d.
Proof.
  intros Hd.
  assert (d = 0 ∨ d = 1 ∨ d = 2 ∨ d = 3 ∨ d = 4 ∨ d = 5 ∨ d = 6 ∨ d = 7
          ∨ d = 8 ∨ d = 9)%N as H by lia.
  repeat destruct H as [->|H]; try subst d; by vm_compute.
Qed.

(** The digits that [pretty_N_go] puts in front of [s]. *)
Lemma pretty_N_go_digits (x : N) (s : string) :
  ∃ ds, pretty_N_go x s = ds +:+ s
        ∧ all_chars isdigit ds = true
        ∧ decimal 0 ds = Z.of_N x
        ∧ ((0 < x)%N → ds ≠ EmptyString).
Proof.
  revert s. induction (N.lt_wf_0 x) as [x _ IH]; intros s.
  destruct (decide (x = 0%N)) as [->|Hx].
  - exists EmptyString. rewrite pretty_N_go_0. repeat split; [done..|lia].
  - rewrite pretty_N_go_step by lia.
    destruct (IH (x `div` 10)%N) with (s := String (pretty_N_char (x `mod` 10)) s)
      as (ds & Hgo & Hds & Hval & _).
    { apply N.div_lt; lia. }
    destruct (pretty_N_char_digit (x `mod` 10)%N) as [Hdig Hcode].
    { apply N.mod_lt; lia. }
    exists (ds +:+ String (pretty_N_char (x `mod` 10)) EmptyString).
    repeat split.
    + by rewrite Hgo, append_assoc.
    + rewrite all_chars_app, Hds. simpl. by rewrite Hdig.
    + rewrite decimal_app, Hval. simpl decimal. rewrite Hcode.
      pose proof (N.div_mod x 10). lia.
    + intros _. by destruct ds.
Qed.

(** [str n] of a natural number is its non-empty decimal numeral. *)
Lemma str_numeral (n : N) :
  str (Z.of_N n) ≠ EmptyString
  ∧ all_chars isdigit (str (Z.of_N n)) = true
  ∧ decimal 0 (str (Z.of_N n)) = Z.of_N n.
Proof.
  destruct n as [|p]; [by vm_compute|].
  change (str (Z.of_N (N.pos p))) with (pretty_N_go (N.pos p) EmptyString).
  destruct (pretty_N_go_digits (N.pos p) EmptyString) as (ds & -> & Hds & Hval & Hne).
  rewrite append_empty_r. split; [apply Hne; lia|done].
Qed.

Lemma int_str (n : N) :
  (String.length (str (Z.of_N n)) ≤ max_str_digits)%nat →
  int (str (Z.of_N n)) = Ok (Z.of_N n).
Proof.
  intros Hlen. destruct (str_numeral n) as (Hne & Hds & Hval).
  by rewrite int_decimal, Hval.
Qed.

End Numerals.

(** ** Summarize: the count read from the collection output *)

Section Summarize.
Import final_qa_validation.

Lemma filter_first_match (before after : list string) (line : string) :
  Forall (λ l, is_collected_line l = false) before →
  is_collected_line line = true →
  List.filter is_collected_line (before ++ line :: after)
  = line :: List.filter is_collected_line after.
Proof.
  intros Hbefore Hline. rewrite List.filter_app. simpl. rewrite Hline.
  induction Hbefore as [|l before Hl _ IH]; simpl; [done|]. by rewrite Hl.
Qed.

Lemma filter_no_match (lines : list string) :
  Forall (λ l, is_collected_line l = false) lines →
  List.filter is_collected_line lines = [].
Proof.
  induction 1 as [|l lines Hl _ IH]; simpl; [done|]. by rewrite Hl.
Qed.

(** The count is looked for in the first whitespace-separated token of the
    first matching line. *)
Lemma parse_count_first_token (tok rest : string) (lines : list string) :
  tok ≠ EmptyString →
  all_chars (λ a, negb (isspace a)) tok = true →
  parse_count ((tok +:+ String " " rest) :: lines)
  = if contains "/" tok
    then second ← getitem (split "/" tok) 1; int second
    else int tok.
Proof.
  intros Hne Htok. unfold parse_count.
  change (getitem ((tok +:+ String " " rest) :: lines) 0)
    with (Ok (tok +:+ String " " rest) : result string).
  change ((Ok (tok +:+ String " " rest) : result string) ≫= ?k)
    with (k (tok +:+ String " " rest)).
  cbv beta. by rewrite split_ws_first_token.
Qed.

Lemma numeral_token (n : N) :
  str (Z.of_N n) ≠ EmptyString
  ∧ all_chars (λ a, negb (isspace a)) (str (Z.of_N n)) = true
  ∧ all_chars (λ a, negb (Ascii.eqb a "/")) (str (Z.of_N n)) = true.
Proof.
  destruct (str_numeral n) as (Hne & Hds & _). split; [done|]. split.
  - eapply all_chars_impl, Hds. apply digit_not_space.
  - eapply all_chars_impl, Hds. intros c Hc. by apply digit_not_char.
Qed.

Lemma parse_count_plain (n : N) (tail : string) (lines : list string) :
  (String.length (str (Z.of_N n)) ≤ max_str_digits)%nat →
  parse_count ((str (Z.of_N n) +:+ " tests collected" +:+ tail) :: lines)
  = Ok (Z.of_N n).
Proof.
  intros Hlen. destruct (numeral_token n) as (Hne & Hsp & Hslash).
  change (" tests collected" +:+ tail) with (String " " ("tests collected" +:+ tail)).
  rewrite parse_count_first_token by done.
  rewrite contains_char_absent by done. by apply int_str.
Qed.

Lemma parse_count_fraction (m n : N) (tail : string) (lines : list string) :
  (String.length (str (Z.of_N n)) ≤ max_str_digits)%nat →
  parse_count ((str (Z.of_N m) +:+ "/" +:+ str (Z.of_N n)
                +:+ " tests collected" +:+ tail) :: lines)
  = Ok (Z.of_N n).
Proof.
  intros Hlen. destruct (numeral_token m) as (Hm & Hmsp & Hmslash).
  destruct (numeral_token n) as (Hn & Hnsp & Hnslash).
  set (tok := str (Z.of_N m) +:+ "/" +:+ str (Z.of_N n)).
  replace (str (Z.of_N m) +:+ "/" +:+ str (Z.of_N n) +:+ " tests collected" +:+ tail)
    with (tok +:+ String " " ("tests collected" +:+ tail)).
  2:{ unfold tok. rewrite append_assoc. by f_equal. }
  rewrite parse_count_first_token.
  - assert (contains "/" tok = true) as -> by apply contains_infix.
    unfold tok. change ("/" +:+ str (Z.of_N n)) with (String "/" (str (Z.of_N n))).
    rewrite split_at_sep, split_no_sep by done. by apply int_str.
  - unfold tok. by destruct (str (Z.of_N m)).
  - unfold tok. rewrite !all_chars_app, Hmsp, Hnsp. done.
Qed.

Lemma is_collected_line_suffix (head tail : string) :
  is_collected_line (head +:+ " tests collected" +:+ tail) = true.
Proof.
  unfold is_collected_line. apply andb_true_iff. split.
  - change (" tests collected" +:+ tail) with (" tests " +:+ "collected" +:+ tail).
    rewrite <- append_assoc. apply contains_infix.
  - change (" tests collected" +:+ tail) with (" " +:+ "test" +:+ ("s collected" +:+ tail)).
    rewrite <- append_assoc. apply contains_infix.
Qed.

(** The recorded value is always an integer: whatever [parse_count] raises
    is an [IndexError] or a [ValueError], and both are turned into 0. *)
Lemma collected_count_total (success : bool) (out : string) :
  ∃ z, collected_count success out = Ok z.
Proof.
  unfold collected_count. destruct success; [|by eexists].
  destruct (List.filter _ _) as [|line lines]; [by eexists|].
  unfold parse_count.
  change (getitem (line :: lines) 0) with (Ok line : result string).
  change ((Ok line : result string) ≫= ?k) with (k line). cbv beta.
  destruct (split_ws line) as [|part parts]; [by eexists|].
  change (getitem (part :: parts) 0) with (Ok part : result string).
  change ((Ok part : result string) ≫= ?k) with (k part). cbv beta.
  assert (Hint : ∀ s, ∃ z,
    try_excepts (int s) [([IndexError; ValueError], λ _, mret 0)] = Ok z).
  { intros s. unfold int. destruct (int_of_str s); by eexists. }
  destruct (contains "/" part); [|apply Hint].
  destruct (split "/" part) as [|p0 [|p1 ps]]; try by eexists.
  apply Hint.
Qed.

End Summarize.

(** C5, as the code has it.  When the collection command succeeded and
    the first line of the output that mentions both "collected" and "test"
    reads "N tests collected..." the recorded count is N, and when it reads
    "M/N tests collected..." the recorded count is the denominator N; N is
    a decimal numeral of at most 4300 digits, the longest that [int]
    converts. *)
Theorem collected_count_reads_total
    (out : string) (before after : list string) (line tail : string) (m n : N) :
  split newline out = before ++ line :: after →
  Forall (λ l, final_qa_validation.is_collected_line l = false) before →
  (String.length (str (Z.of_N n)) ≤ max_str_digits)%nat →
  line = str (Z.of_N n) +:+ " tests collected" +:+ tail
  ∨ line = str (Z.of_N m) +:+ "/" +:+ str (Z.of_N n) +:+ " tests collected" +:+ tail →
  final_qa_validation.collected_count true out = Ok (Z.of_N n).
Proof.
  intros Hlines Hbefore Hlen Hline. unfold final_qa_validation.collected_count.
  rewrite Hlines.
  assert (Hmatch : final_qa_validation.is_collected_line line = true).
  { destruct Hline as [->| ->].
    - apply is_collected_line_suffix.
    - rewrite <- !append_assoc. rewrite append_assoc.
      apply is_collected_line_suffix. }
  rewrite (filter_first_match _ _ _ Hbefore Hmatch).
  destruct Hline as [->| ->].
  - by rewrite parse_count_plain.
  - by rewrite parse_count_fraction.
Qed.

(** The two examples of the specification: "87 tests collected" gives 87 and
    "12/87 tests collected" gives 87. *)
Lemma collected_count_reads_total_witness :
  final_qa_validation.collected_count true
    ("unit/test_frame_unit.py::test_frame_creation" +:+ String newline
       "87 tests collected in 0.12s") = Ok 87
  ∧ final_qa_validation.collected_count true "12/87 tests collected" = Ok 87.
Proof.
  split.
  - apply (collected_count_reads_total _
             ["unit/test_frame_unit.py::test_frame_creation"] []
             "87 tests collected in 0.12s" " in 0.12s" 0 87).
    + reflexivity.
    + repeat constructor.
    + vm_compute. lia.
    + left. reflexivity.
  - apply (collected_count_reads_total _ [] [] "12/87 tests collected" "" 12 87).
    + reflexivity.
    + constructor.
    + vm_compute. lia.
    + right. reflexivity.
Defined.

(** C5 as stated fails: an output can hold the line "87 tests collected in
    0.12s" and still give 0, because an earlier line (here a test id with
    "collected" in its name) is the first to mention both words. *)
Lemma collected_count_summary_hidden :
  ¬ (∀ (success : bool) (out : string) (n : N) (tail : string),
       (str (Z.of_N n) +:+ " tests collected" +:+ tail) ∈ split newline out →
       final_qa_validation.collected_count success out = Ok (Z.of_N n)).
Proof.
  intros H.
  specialize (H true
    ("unit/test_frame_unit.py::test_collected_frames" +:+ String newline
       "87 tests collected in 0.12s") 87%N " in 0.12s").
  assert (Hline : str (Z.of_N 87) +:+ " tests collected" +:+ " in 0.12s"
                  = "87 tests collected in 0.12s") by (by vm_compute).
  assert (Hsplit : split newline
                     ("unit/test_frame_unit.py::test_collected_frames" +:+ String newline
                        "87 tests collected in 0.12s")
                   = ["unit/test_frame_unit.py::test_collected_frames";
                      "87 tests collected in 0.12s"]) by (by vm_compute).
  rewrite Hline, Hsplit in H.
  assert (Hcount : final_qa_validation.collected_count true
                     ("unit/test_frame_unit.py::test_collected_frames" +:+ String newline
                        "87 tests collected in 0.12s") = Ok 0) by (by vm_compute).
  rewrite Hcount in H.
  assert (Hin : "87 tests collected in 0.12s"
                ∈ ["unit/test_frame_unit.py::test_collected_frames";
                   "87 tests collected in 0.12s"]).
  { apply list_elem_of_further, list_elem_of_here. }
  specialize (H Hin). discriminate H.
Qed.

(** C2, as the code has it.  An output without any line that mentions both
    "collected" and "test" is recorded as the integer 0 when the command
    succeeded and as -1 when it failed: there is no separate "unknown"
    value. *)
Theorem collected_count_without_token (success : bool) (out : string) :
  Forall (λ l, final_qa_validation.is_collected_line l = false) (split newline out) →
  final_qa_validation.collected_count success out = Ok (if success then 0 else -1).
Proof.
  intros Hlines. unfold final_qa_validation.collected_count.
  destruct success; [|done]. by rewrite filter_no_match.
Qed.

Lemma collected_count_without_token_witness :
  final_qa_validation.collected_count true "no tests ran in 0.01s" = Ok 0.
Proof.
  apply (collected_count_without_token true "no tests ran in 0.01s").
  repeat constructor.
Defined.

(** C2 as stated fails: an output with no count token yields the integer 0. *)
Lemma collected_count_unknown_is_zero :
  ¬ (∀ out : string,
       Forall (λ l, final_qa_validation.is_collected_line l = false) (split newline out) →
       final_qa_validation.collected_count true out ≠ Ok 0).
Proof.
  intros H. apply (H "no tests ran in 0.01s"); [repeat constructor | reflexivity].
Qed.

(** ** Execute: [run_pytest_command] *)

Lemma matches_any (e : exn) : matches [Exception] e = true.
Proof. destruct e as [[] ?]; reflexivity. Qed.

(** C7, as the code has it.  [run_pytest_command] never raises.  A command that ran to its end
    gives its own outcome; a command that exceeded the timeout gives the
    unsuccessful outcome with no output and the text "Command timed out";
    a command that failed in any other way, in particular one that could
    not be started, gives the unsuccessful outcome with no output and the
    text of the error.  No other outcome exists. *)
Theorem run_pytest_command_outcomes
    (w : final_qa_validation.world) (args : list string) :
  final_qa_validation.run_pytest_command w args =
  match final_qa_validation.subprocess_run w (["python"; "-m"; "pytest"] ++ args) with
  | Ok p => Ok (returncode p =? 0, stdout p, stderr p)
  | Raise e =>
      if issubclass (exn_cls e) TimeoutExpired
      then Ok (false, "", "Command timed out")
      else Ok (false, "", exn_str e)
  end.
Proof.
  unfold final_qa_validation.run_pytest_command.
  destruct (final_qa_validation.subprocess_run w _) as [p|e]; [done|].
  destruct e as [[] msg]; reflexivity.
Qed.

(** C7 as stated fails in its last clause: the timeout and the failure to
    start are not the only things that decide the overall outcome, and a
    timeout need not decide it.  On a machine where every command runs to its end with
    return code 0, an unreadable collection summary alone makes the
    validator exit with 1; a timeout of the unit collection is handed back
    by [run_pytest_command] and leaves the exit status at 0; and a report
    file that cannot be written ends the process with an uncaught
    [PermissionError]. *)
Lemma other_errors_decide_the_outcome :
  ((∀ cmd, ∃ p,
      final_qa_validation.subprocess_run Observed.unreadable_summary cmd = Ok p
      ∧ returncode p = 0)
   ∧ final_qa_validation.main Observed.unreadable_summary = SysExit 1)
  ∧ (final_qa_validation.run_pytest_command Observed.unit_collection_times_out
       ["unit/"; "--collect-only"; "-q"]
     = Ok (false, "", "Command timed out")
     ∧ final_qa_validation.main Observed.unit_collection_times_out = SysExit 0)
  ∧ ((∀ cmd, ∃ p,
        final_qa_validation.subprocess_run Observed.report_not_writable cmd = Ok p
        ∧ returncode p = 0)
     ∧ final_qa_validation.main Observed.report_not_writable
       = Uncaught (Exn PermissionError "Permission denied"))
  ∧ ¬ (∀ w : final_qa_validation.world,
         (∀ cmd, ∃ p, final_qa_validation.subprocess_run w cmd = Ok p) →
         final_qa_validation.main w = SysExit 0)
  ∧ ¬ (∀ (w : final_qa_validation.world) (args : list string),
         final_qa_validation.run_pytest_command w args
         = Ok (false, "", "Command timed out") →
         final_qa_validation.main w ≠ SysExit 0).
Proof.
  assert (Hruns : ∀ cmd, ∃ p,
            final_qa_validation.subprocess_run Observed.unreadable_summary cmd = Ok p
            ∧ returncode p = 0).
  { intros cmd. unfold Observed.unreadable_summary. simpl.
    destruct (bool_decide _); by eexists. }
  assert (Hexit : final_qa_validation.main Observed.unreadable_summary = SysExit 1).
  { vm_compute. reflexivity. }
  assert (Htimeout :
            final_qa_validation.run_pytest_command Observed.unit_collection_times_out
              ["unit/"; "--collect-only"; "-q"]
            = Ok (false, "", "Command timed out")).
  { vm_compute. reflexivity. }
  assert (Hzero : final_qa_validation.main Observed.unit_collection_times_out = SysExit 0).
  { vm_compute. reflexivity. }
  split; [exact (conj Hruns Hexit)|].
  split; [exact (conj Htimeout Hzero)|].
  split; [split|split].
  - intros cmd. unfold Observed.report_not_writable. simpl.
    destruct (bool_decide _); eexists; split; reflexivity.
  - vm_compute. reflexivity.
  - intros H. specialize (H Observed.unreadable_summary).
    rewrite Hexit in H. discriminate H.
    intros cmd. destruct (Hruns cmd) as (p & Hp & _). exists p. exact Hp.
  - intros H. exact (H Observed.unit_collection_times_out _ Htimeout Hzero).
Qed.

(** ** [find_available_port] *)

Section Ports.
Import run_qa_pipeline.
Context (w : world).

Lemma socket_bind_valid (port : Z) :
  0 ≤ port ≤ 65535 →
  socket_bind w port
  = if port_free w port then Ok () else Raise (Exn OSError "Address already in use").
Proof.
  intros H. unfold socket_bind.
  assert ((port <? 0) || (65535 <? port) = false) as ->; [|done].
  apply orb_false_iff. split; apply Z.ltb_ge; lia.
Qed.

(** On valid ports the loop is a search for the first free one. *)
Lemma port_loop_find (ports : list Z) (start_port : Z) :
  Forall (λ p, 0 ≤ p ≤ 65535) ports →
  port_loop w ports start_port
  = Ok (default start_port (List.find (port_free w) ports)).
Proof.
  induction 1 as [|p ports Hp _ IH]; [done|].
  simpl. rewrite (socket_bind_valid _ Hp).
  destruct (port_free w p); [done|]. simpl. apply IH.
Qed.

Lemma elem_of_range (a b q : Z) : q ∈ range a b ↔ a ≤ q < b.
Proof.
  unfold range. rewrite list_elem_of_fmap. split.
  - intros (i & -> & Hi%elem_of_seq). lia.
  - intros H. exists (Z.to_nat (q - a)). split; [lia|].
    apply elem_of_seq. lia.
Qed.

Lemma find_first (f : Z → bool) (a : Z) (n : nat) :
  match List.find f ((λ i : nat, a + Z.of_nat i) <$> seq 0 n) with
  | Some p => a ≤ p < a + Z.of_nat n ∧ f p = true ∧ ∀ q, a ≤ q < p → f q = false
  | None => ∀ q, a ≤ q < a + Z.of_nat n → f q = false
  end.
Proof.
  revert a. induction n as [|n IH]; intros a.
  - simpl. intros q Hq. lia.
  - rewrite <- cons_seq, fmap_cons. simpl List.find.
    replace (a + Z.of_nat 0) with a by lia.
    destruct (f a) eqn:Hfa.
    + repeat split; [lia..|done|]. intros q Hq. lia.
    + rewrite <- fmap_S_seq, <- list_fmap_compose.
      specialize (IH (a + 1)).
      erewrite (list_fmap_ext _ (λ i : nat, a + 1 + Z.of_nat i)); last first.
      { intros i x _. simpl. lia. }
      destruct (List.find f _) as [p|].
      * destruct IH as (Hp & Hfp & Hbefore). repeat split; [lia..|done|].
        intros q Hq. destruct (decide (q = a)) as [->|]; [done|].
        apply Hbefore. lia.
      * intros q Hq. destruct (decide (q = a)) as [->|]; [done|].
        apply IH. lia.
Qed.

(** For a start port whose whole range is made of valid ports the function
    returns, and what it returns is the first free port of the range, or
    the start port when the range has none. *)
Lemma find_available_port_valid (start_port : Z) :
  0 ≤ start_port → start_port + 99 ≤ 65535 →
  ∃ p, find_available_port w start_port = Ok p
       ∧ start_port ≤ p ≤ start_port + 99
       ∧ ((port_free w p = true ∧ ∀ q, start_port ≤ q < p → port_free w q = false)
          ∨ (p = start_port
             ∧ ∀ q, start_port ≤ q ≤ start_port + 99 → port_free w q = false)).
Proof.
  intros Hlo Hhi. unfold find_available_port.
  rewrite port_loop_find; last first.
  { apply Forall_forall. intros q Hq%elem_of_range. lia. }
  eexists. split; [done|].
  pose proof (find_first (port_free w) start_port 100) as Hfind.
  unfold range. replace (Z.to_nat (start_port + 100 - start_port)) with 100%nat by lia.
  destruct (List.find _ _) as [p|]; simpl.
  - destruct Hfind as (Hp & Hfree & Hbefore). split; [lia|]. left. done.
  - split; [lia|]. right. split; [done|]. intros q Hq. apply Hfind. lia.
Qed.

End Ports.

(** C10, as the code has it.  For a start port with 0 <= start_port and
    start_port + 99 <= 65535, [find_available_port] returns a port p with
    start_port <= p <= start_port + 99: the first port of the range that can
    be bound, or start_port itself when none can. *)
Theorem find_available_port_in_range (w : run_qa_pipeline.world) (start_port : Z) :
  0 ≤ start_port → start_port + 99 ≤ 65535 →
  ∃ p, run_qa_pipeline.find_available_port w start_port = Ok p
       ∧ start_port ≤ p ≤ start_port + 99
       ∧ ((run_qa_pipeline.port_free w p = true
           ∧ ∀ q, start_port ≤ q < p → run_qa_pipeline.port_free w q = false)
          ∨ (p = start_port
             ∧ ∀ q, start_port ≤ q ≤ start_port + 99 →
                    run_qa_pipeline.port_free w q = false)).
Proof. apply find_available_port_valid. Qed.

Lemma find_available_port_in_range_witness :
  ∃ p, run_qa_pipeline.find_available_port Scenarios.all_ports_busy 64678 = Ok p
       ∧ 64678 ≤ p ≤ 64678 + 99
       ∧ ((run_qa_pipeline.port_free Scenarios.all_ports_busy p = true
           ∧ ∀ q, 64678 ≤ q < p →
                  run_qa_pipeline.port_free Scenarios.all_ports_busy q = false)
          ∨ (p = 64678
             ∧ ∀ q, 64678 ≤ q ≤ 64678 + 99 →
                    run_qa_pipeline.port_free Scenarios.all_ports_busy q = false)).
Proof.
  apply (find_available_port_in_range Scenarios.all_ports_busy 64678); lia.
Defined.

(** C10 as stated fails: with the ports 65500..65535 all busy, the search
    from 65500 reaches port 65536, which the socket layer rejects with an
    [OverflowError] that [except OSError] does not catch. *)
Lemma find_available_port_overflow :
  run_qa_pipeline.find_available_port Scenarios.all_ports_busy 65500
  = Raise (Exn OverflowError "bind(): port must be 0-65535.").
Proof. vm_compute. reflexivity. Qed.

(** ** The categories-trend widget *)

(** C9.  For a failed count that is not negative, the "Current" entry of
    the categories-trend widget (the fifth entry) has Product defects
    [max(failed - 1, 0)] and Test defects [1 if failed > 0 else 0], which add
    up to the failed count, and its Environment issues and Automation
    issues are 0. *)
Theorem categories_trend_current (failed : Z) :
  0 ≤ failed →
  let trend := run_qa_pipeline.categories_trend_data failed in
  Notions.trend_name trend 4 = Some (run_qa_pipeline.JStr "OpenFilter QA Report - Current")
  ∧ ∃ product test,
      Notions.trend_value trend 4 "Product defects" = Some (run_qa_pipeline.JInt product)
      ∧ Notions.trend_value trend 4 "Test defects" = Some (run_qa_pipeline.JInt test)
      ∧ product = Z.max (failed - 1) 0
      ∧ test = (if 0 <? failed then 1 else 0)
      ∧ product + test = failed
      ∧ Notions.trend_value trend 4 "Environment issues" = Some (run_qa_pipeline.JInt 0)
      ∧ Notions.trend_value trend 4 "Automation issues" = Some (run_qa_pipeline.JInt 0).
Proof.
  intros Hfailed. split; [reflexivity|].
  exists (Z.max (failed - 1) 0), (if 0 <? failed then 1 else 0).
  repeat split; try reflexivity.
  destruct (Z.ltb_spec 0 failed); lia.
Qed.

Lemma categories_trend_current_witness :
  let trend := run_qa_pipeline.categories_trend_data 3 in
  Notions.trend_name trend 4 = Some (run_qa_pipeline.JStr "OpenFilter QA Report - Current")
  ∧ ∃ product test,
      Notions.trend_value trend 4 "Product defects" = Some (run_qa_pipeline.JInt product)
      ∧ Notions.trend_value trend 4 "Test defects" = Some (run_qa_pipeline.JInt test)
      ∧ product = Z.max (3 - 1) 0
      ∧ test = (if 0 <? 3 then 1 else 0)
      ∧ product + test = 3
      ∧ Notions.trend_value trend 4 "Environment issues" = Some (run_qa_pipeline.JInt 0)
      ∧ Notions.trend_value trend 4 "Automation issues" = Some (run_qa_pipeline.JInt 0).
Proof. apply (categories_trend_current 3). lia. Defined.

(** ** Report: the fallback page *)

(** C1, at the failing input.  With a total of 0 the fallback generator
    never writes a page: once the report directory is made, the pass rate
    [passed / total] raises [ZeroDivisionError], for every passed and
    failed count. *)
Theorem create_basic_html_report_zero_total
    (w : run_qa_pipeline.world) (report_dir : list string) (passed failed : Z)
    (executor environment : string) (t : gmap (list string) run_qa_pipeline.node) :
  run_qa_pipeline.create_basic_html_report w report_dir 0 passed failed
    executor environment t
  = match run_qa_pipeline.makedirs report_dir t with
    | (Ok _, t') => (Raise (Exn ZeroDivisionError "division by zero"), t')
    | (Raise e, t') => (Raise e, t')
    end.
Proof.
  unfold run_qa_pipeline.create_basic_html_report.
  unfold mbind at 1. unfold run_qa_pipeline.M_bind.
  destruct (run_qa_pipeline.makedirs report_dir t) as [[[]|e] t']; reflexivity.
Qed.


(** ** Aggregate: the counters of the result files *)

Section Aggregate.
Import run_qa_pipeline Notions.
Context (t : fs).

Lemma counts_eq (c d : counts) :
  total c = total d → passed c = passed d → failed c = failed d → c = d.
Proof. destruct c, d; simpl; congruence. Qed.

(** What one file adds to the three counters. *)
Lemma count_file_adds (file : path) (c : counts) :
  count_file t file c
  = {| total := total c + (if parses t file then 1 else 0);
       passed := passed c + (if has_status ["passed"] t file then 1 else 0);
       failed := failed c + (if has_status ["failed"; "broken"] t file then 1 else 0) |}.
Proof.
  unfold count_file, parses, has_status.
  destruct (load_json t file) as [data|e]; simpl.
  2:{ apply counts_eq; simpl; lia. }
  destruct data as [| | | | |items|members]; simpl;
    try (apply counts_eq; simpl; lia).
  destruct (assoc "status" members) as [[| | | |s| |]|]; simpl;
    try (apply counts_eq; simpl; lia).
  destruct (String.eqb s "passed") eqn:Hp; simpl.
  - apply String.eqb_eq in Hp as ->. simpl. apply counts_eq; simpl; lia.
  - rewrite !orb_false_r.
    destruct (String.eqb s "failed" || String.eqb s "broken");
      apply counts_eq; simpl; lia.
Qed.

Lemma fold_count_file (files : list path) (c : counts) :
  fold_left (λ c file, count_file t file c) files c
  = {| total := total c + count (parses t) files;
       passed := passed c + count (has_status ["passed"] t) files;
       failed := failed c + count (has_status ["failed"; "broken"] t) files |}.
Proof.
  revert c. induction files as [|file files IH]; intros c; simpl.
  - apply counts_eq; unfold count; simpl; lia.
  - rewrite IH, count_file_adds. unfold count. simpl.
    destruct (parses t file), (has_status ["passed"] t file),
      (has_status ["failed"; "broken"] t file);
      apply counts_eq; simpl; lia.
Qed.

(** The counters after the loop: every file that opens and parses is in the
    total, whether or not it is a record. *)
Lemma aggregate_files_counts (files : list path) :
  aggregate_files t files
  = {| total := count (parses t) files;
       passed := count (has_status ["passed"] t) files;
       failed := count (has_status ["failed"; "broken"] t) files |}.
Proof. unfold aggregate_files. rewrite fold_count_file. by apply counts_eq. Qed.

Lemma filter_ext_in {A} (f g : A → bool) (l : list A) :
  (∀ x, x ∈ l → f x = g x) → List.filter f l = List.filter g l.
Proof.
  induction l as [|x l IH]; intros H; simpl; [done|].
  rewrite (H x) by left. rewrite IH; [done|]. intros y Hy. apply H. by right.
Qed.

(** When every file that parses holds a record, the total is the number of
    records, and files that do not open or parse add to no counter. *)
Lemma aggregate_files_records (files : list path) :
  (∀ file, file ∈ files → parses t file = true → is_record t file = true) →
  total (aggregate_files t files) = count (is_record t) files.
Proof.
  intros H. rewrite aggregate_files_counts. simpl. unfold count.
  f_equal. f_equal. apply filter_ext_in. intros file Hin.
  specialize (H file Hin). unfold parses, is_record in *.
  destruct (load_json t file) as [[]|]; simpl in *; try done; by discriminate H.
Qed.

End Aggregate.

(** C6, at the failing input.  A result file that holds the JSON array
    [[]] is no test result record: [data.get] raises and the file is
    skipped by the [except] clause, yet it has already been added to the
    total, which becomes 1 while no record exists. *)
Theorem aggregate_counts_skipped_file :
  let t := Scenarios.array_result_file in
  let file := run_qa_pipeline.ALLURE_RESULTS_DIR ++ ["x-result.json"] in
  run_qa_pipeline.glob_suffix t run_qa_pipeline.ALLURE_RESULTS_DIR "-result.json" = [file]
  ∧ Notions.is_record t file = false
  ∧ (∃ e, (data ← run_qa_pipeline.load_json t file; run_qa_pipeline.get data "status")
          = Raise e)
  ∧ (run_qa_pipeline.aggregate run_qa_pipeline.ALLURE_RESULTS_DIR t).1
    = Ok {| run_qa_pipeline.total := 1;
            run_qa_pipeline.passed := 0;
            run_qa_pipeline.failed := 0 |}.
Proof. repeat split; try by vm_compute. by eexists. Qed.

(** ** The exit status of the runner *)

Section Fallback.
Import run_qa_pipeline Notions.
Context (w : world).

(** Without a [widgets] directory the first widget file cannot be opened. *)
Lemma apply_customizations_without_widgets (port : string) (c : counts) (t : fs) :
  t !! widgets = None →
  apply_customizations w port c t
  = (Raise (Exn FileNotFoundError "No such file or directory"), t).
Proof.
  intros Hw. unfold apply_customizations. rewrite M_bind_unfold.
  unfold write_file. simpl parent. simpl exists_.
  change (["allure-report"; "widgets"]) with widgets.
  rewrite bool_decide_eq_false_2; [done|]. rewrite Hw. by intros [? ?].
Qed.

(** The fallback page is written next to where the widgets would be: it
    does not create their directory. *)
Lemma create_basic_html_report_widgets (total passed failed : Z)
    (executor environment : string) (t : fs) :
  (create_basic_html_report w ALLURE_REPORT_DIR total passed failed
     executor environment t).2 !! widgets
  = t !! widgets.
Proof.
  unfold create_basic_html_report. rewrite M_bind_unfold.
  unfold makedirs, ALLURE_REPORT_DIR. simpl makedirs_from.
  assert (Hne : ["allure-report"] ≠ widgets) by done.
  assert (Hne' : ["allure-report"; "index.html"] ≠ widgets) by done.
  assert (Hwrite : ∀ page t0,
            (write_file ["allure-report"; "index.html"] page t0).2 !! widgets
            = t0 !! widgets).
  { intros page t0. unfold write_file.
    destruct (negb _); [done|]. destruct (negb _); [done|].
    destruct (t0 !! _) as [[|]|]; simpl; by rewrite ?lookup_insert_ne. }
  destruct (t !! ["allure-report"]) as [[|c]|]; simpl; try done;
    rewrite M_bind_unfold; unfold lift;
    (destruct (percent_of passed total); [|simpl; by rewrite ?lookup_insert_ne]);
    rewrite M_bind_unfold;
    (destruct (percent_of failed total); [|simpl; by rewrite ?lookup_insert_ne]);
    rewrite Hwrite; by rewrite ?lookup_insert_ne.
Qed.

(** Whatever the counters are, the fallback followed by step 5 never
    reaches the end when allure left no [widgets] directory behind. *)
Lemma fallback_then_customizations_raise (port : string) (c : counts) (t : fs) :
  t !! widgets = None →
  ∃ e t',
    (_ ← create_basic_html_report w ALLURE_REPORT_DIR
           (total c) (passed c) (failed c) EXECUTOR_NAME ENVIRONMENT;
     apply_customizations w port c) t = (Raise e, t').
Proof.
  intros Hw. rewrite M_bind_unfold.
  pose proof (create_basic_html_report_widgets (total c) (passed c) (failed c)
                EXECUTOR_NAME ENVIRONMENT t) as Hkeep.
  destruct (create_basic_html_report _ _ _ _ _ _ _ t) as [[[]|e] t']; [|by eauto].
  simpl in Hkeep. rewrite apply_customizations_without_widgets by congruence.
  eauto.
Qed.

End Fallback.

(** C3, at the failing input.  On a machine without allure and scoop the
    failure of the report generation is absorbed and the fallback page is
    written, but the run then dies on the first widget file, whose directory
    only allure creates: the exit status is 1, where the same tests on a
    machine with allure give 0.  With no result file at all the fallback
    itself raises [ZeroDivisionError] inside the [except] clause. *)
Theorem fallback_changes_exit_status :
  let files := [Scenarios.result_file "test_frame" "passed"] in
  (run_qa_pipeline.run (Scenarios.with_allure files 0) ∅).1 = Finished
  ∧ (run_qa_pipeline.run (Scenarios.without_allure files 0) ∅).1
    = Uncaught (Exn FileNotFoundError "No such file or directory")
  ∧ is_Some ((run_qa_pipeline.run (Scenarios.without_allure files 0) ∅).2
               !! (run_qa_pipeline.ALLURE_REPORT_DIR ++ ["index.html"]))
  ∧ (run_qa_pipeline.run (Scenarios.without_allure [] 0) ∅).1
    = Uncaught (Exn ZeroDivisionError "division by zero")
  ∧ exit_status (run_qa_pipeline.run (Scenarios.with_allure files 0) ∅).1 = 0
  ∧ exit_status (run_qa_pipeline.run (Scenarios.without_allure files 0) ∅).1 = 1.
Proof. repeat split; try by vm_compute. vm_compute. by eexists. Qed.

Section ValidatorExit.
Import final_qa_validation Notions.

Lemma run_validations_all (vs : list (string * result bool)) (b : bool) :
  run_validations vs b
  = Ok (b && forallb (λ v : string * result bool, passes v.2) vs).
Proof.
  revert b. induction vs as [|[name v] vs IH]; intros b; simpl.
  - by rewrite andb_true_r.
  - destruct v as [[]|[[] msg]]; simpl; rewrite IH; by rewrite ?andb_false_r.
Qed.

(** The validator exits with 0 exactly when its five validations returned
    [True] and the report file could be written, and with 1 otherwise. *)
Lemma validator_exit_status (w : world) :
  exit_status (main w)
  = if forallb (λ v : string * result bool, passes v.2) (validations w)
       && succeeded (save_report w)
    then 0 else 1.
Proof.
  unfold main, generate_validation_report.
  rewrite run_validations_all.
  generalize (forallb (λ v : string * result bool, passes v.2) (validations w)).
  intros b. destruct b; destruct (save_report w); reflexivity.
Qed.

(** Failing tests do not fail the regression validation as long as pytest
    printed that it collected them. *)
Lemma regression_suite_passes_on_failures (w : world) (p : CompletedProcess) :
  subprocess_run w (["python"; "-m"; "pytest"]
                    ++ ["-m"; "regression"; "--alluredir=allure-results"; "-v"; "--tb=short"])
  = Ok p →
  contains "collected" (stdout p) = true →
  validate_regression_suite w = Ok true.
Proof.
  intros Hrun Hout. unfold validate_regression_suite, run_pytest_command.
  rewrite Hrun. simpl. by rewrite Hout, orb_true_r.
Qed.

End ValidatorExit.

Section PipelineExit.
Import run_qa_pipeline Notions.
Context (w : world) (rc : Z).

Lemma port_loop_with_returncode (ports : list Z) (start_port : Z) :
  port_loop (with_returncode rc w) ports start_port = port_loop w ports start_port.
Proof.
  induction ports as [|port ports IH]; [done|].
  simpl. by rewrite IH.
Qed.

Lemma generate_loop_with_returncode (cmds : list string) :
  generate_loop (with_returncode rc w) cmds = generate_loop w cmds.
Proof.
  induction cmds as [|cmd cmds IH]; [done|].
  simpl. by rewrite IH.
Qed.

Lemma open_loop_with_returncode (cmds : list string) :
  open_loop (with_returncode rc w) cmds = open_loop w cmds.
Proof.
  induction cmds as [|cmd cmds IH]; [done|].
  simpl. by rewrite IH.
Qed.

(** The return code of pytest has no influence on the run. *)
Lemma main_with_returncode (t : fs) :
  main (with_returncode rc w) t = main w t.
Proof.
  unfold main, find_available_port.
  rewrite port_loop_with_returncode.
  apply M_bind_ext; intros port t0.
  apply M_bind_ext; intros [] t1.
  apply M_bind_ext; intros [] t2.
  rewrite !(M_bind_unfold (pytest _)).
  change (pytest (with_returncode rc w) t2)
    with (match pytest w t2 with
          | (Ok p, t') =>
              (Ok {| returncode := rc; stdout := stdout p; stderr := stderr p |}, t')
          | (Raise e, t') => (Raise e, t')
          end).
  destruct (pytest w t2) as [[p|e] t3]; [|done].
  apply M_bind_ext; intros c t4.
  unfold generate_report, open_report.
  by rewrite generate_loop_with_returncode, open_loop_with_returncode.
Qed.

End PipelineExit.

(** C4, as the code has it.  The validator exits with 0 exactly when all
    five validations returned [True] and its report was saved, and with 1
    otherwise.  The pipeline runner never inspects what pytest returned: a
    run behaves the same for every return code of pytest, and its exit
    status is 0 exactly when [main] reaches its end. *)
Theorem exit_status_of_the_scripts :
  (∀ w : final_qa_validation.world,
     exit_status (final_qa_validation.main w)
     = if forallb (λ v : string * result bool, Notions.passes v.2)
            (final_qa_validation.validations w)
          && Notions.succeeded (final_qa_validation.save_report w)
       then 0 else 1)
  ∧ (∀ (w : run_qa_pipeline.world) (rc : Z) t,
       run_qa_pipeline.run (Notions.with_returncode rc w) t = run_qa_pipeline.run w t)
  ∧ (∀ (w : run_qa_pipeline.world) t,
       exit_status (run_qa_pipeline.run w t).1 = 0
       ↔ (run_qa_pipeline.main w t).1 = Ok ()).
Proof.
  split; [apply validator_exit_status|]. split.
  - intros w rc t. unfold run_qa_pipeline.run. by rewrite main_with_returncode.
  - intros w t. unfold run_qa_pipeline.run.
    destruct (run_qa_pipeline.main w t) as [[[]|e] t']; simpl; split; done.
Qed.

(** C4 as stated fails: a run of the pipeline in which pytest ends with
    return code 1 and one of the two tests failed finishes with exit status
    0, and so does a validator run whose test commands all end with failing
    tests. *)
Lemma failing_tests_exit_zero :
  let w := Scenarios.with_allure
             [Scenarios.result_file "test_a" "passed";
              Scenarios.result_file "test_b" "failed"] 1 in
  exit_status (run_qa_pipeline.run w ∅).1 = 0
  ∧ (run_qa_pipeline.run w ∅).2
      !! (run_qa_pipeline.ALLURE_REPORT_DIR ++ ["widgets"; "history-trend.json"])
    = Some (run_qa_pipeline.File (run_qa_pipeline.Json
        (run_qa_pipeline.history_data
           {| run_qa_pipeline.total := 2;
              run_qa_pipeline.passed := 1;
              run_qa_pipeline.failed := 1 |})))
  ∧ exit_status (final_qa_validation.main Scenarios.tests_fail) = 0.
Proof. repeat split; by vm_compute. Qed.

(** ** Re-running: the artifact directories are cleared first *)

Section Clean.
Import run_qa_pipeline Notions.

Lemma lookup_without_artifacts (t : fs) (p : path) :
  without_artifacts t !! p
  = if is_prefix ALLURE_RESULTS_DIR p || is_prefix ALLURE_REPORT_DIR p
    then None else t !! p.
Proof.
  unfold without_artifacts.
  destruct (is_prefix ALLURE_RESULTS_DIR p) eqn:H1;
    [|destruct (is_prefix ALLURE_REPORT_DIR p) eqn:H2]; simpl.
  - apply map_lookup_filter_None. right. intros x _ HP. simpl in HP.
    destruct HP. congruence.
  - apply map_lookup_filter_None. right. intros x _ HP. simpl in HP.
    destruct HP. congruence.
  - apply option_eq. intros x. rewrite map_lookup_filter_Some. simpl. tauto.
Qed.

Lemma artifacts_dir (t : fs) (d p : path) (x : node) :
  artifacts_in_directories t →
  d ∈ [ALLURE_RESULTS_DIR; ALLURE_REPORT_DIR] →
  t !! p = Some x → d `prefix_of` p → is_dir t d = true.
Proof.
  intros Ht Hd Hp Hpre. specialize (Ht p x Hp). simpl in Ht.
  rewrite Forall_forall in Ht. by apply (Ht d).
Qed.

(** One [if os.path.exists(d): shutil.rmtree(d)] on a top-level name. *)
Lemma remove_step {A : Type} (name : string) (t : fs) (k : M A) :
  (∀ p x, t !! p = Some x → [name] `prefix_of` p → is_dir t [name] = true) →
  (read (λ t, exists_ t [name])
     ≫= λ ex : bool, (if ex then rmtree [name] else mret ()) ≫= λ _, k) t
  = k (filter (λ kv, is_prefix [name] kv.1 = false) t).
Proof.
  intros Hdir. rewrite M_bind_unfold. unfold read. simpl exists_.
  destruct (t !! [name]) as [[|c]|] eqn:Hd.
  - rewrite bool_decide_eq_true_2 by by eexists.
    rewrite M_bind_unfold. unfold rmtree. by rewrite Hd.
  - specialize (Hdir [name] _ Hd (reflexivity _)).
    unfold is_dir in Hdir. by rewrite Hd in Hdir.
  - rewrite bool_decide_eq_false_2 by (intros [? ?]; done).
    rewrite M_bind_unfold. unfold mret, M_ret.
    rewrite map_filter_id; [done|].
    intros p x Hp. simpl. apply bool_decide_eq_false. intros Hpre.
    specialize (Hdir p x Hp Hpre). unfold is_dir in Hdir. by rewrite Hd in Hdir.
Qed.

(** Step 1 leaves the two artifact directories as a fresh, empty results
    directory with its [history] subdirectory and no report directory;
    everything else is untouched. *)
Lemma clean_previous_results_tree (t : fs) :
  artifacts_in_directories t →
  clean_previous_results t
  = (Ok (), <[ALLURE_RESULTS_DIR ++ ["history"] := Dir]>
              (<[ALLURE_RESULTS_DIR := Dir]> (without_artifacts t))).
Proof.
  intros Ht. unfold clean_previous_results.
  rewrite (remove_step "allure-results"); last first.
  { intros p x Hp Hpre. eapply (artifacts_dir t ALLURE_RESULTS_DIR); [done|by left|done..]. }
  set (t1 := filter (λ kv : path * node, is_prefix ["allure-results"] kv.1 = false) t).
  rewrite (remove_step "allure-report"); last first.
  { intros p x [Hp _]%map_lookup_filter_Some Hpre.
    assert (Hrep : is_dir t ALLURE_REPORT_DIR = true).
    { eapply (artifacts_dir t ALLURE_REPORT_DIR); [done|by right; left|done..]. }
    unfold is_dir, ALLURE_REPORT_DIR in Hrep |- *.
    destruct (t !! ["allure-report"]) as [[|]|] eqn:Hd; try done.
    unfold t1. rewrite (map_lookup_filter_Some_2 _ _ _ Dir); [done|done|by vm_compute]. }
  assert (Ht2 : filter (λ kv : path * node, is_prefix ["allure-report"] kv.1 = false) t1
                = without_artifacts t).
  { unfold t1, without_artifacts. rewrite map_filter_filter.
    apply map_filter_ext. intros p x _. simpl. unfold ALLURE_RESULTS_DIR, ALLURE_REPORT_DIR.
    tauto. }
  rewrite Ht2. rewrite M_bind_unfold.
  assert (Hmk1 : makedirs ALLURE_RESULTS_DIR (without_artifacts t)
                 = (Ok (), <[ALLURE_RESULTS_DIR := Dir]> (without_artifacts t))).
  { unfold makedirs, ALLURE_RESULTS_DIR. simpl.
    by rewrite lookup_without_artifacts. }
  rewrite Hmk1.
  unfold makedirs, ALLURE_RESULTS_DIR. simpl.
  rewrite lookup_insert_eq, lookup_insert_ne by done.
  by rewrite lookup_without_artifacts.
Qed.

Lemma artifacts_in_directories_without (t : fs) :
  artifacts_in_directories (without_artifacts t).
Proof.
  intros p x Hp. simpl. rewrite lookup_without_artifacts in Hp.
  destruct (is_prefix ALLURE_RESULTS_DIR p) eqn:H1; [done|].
  destruct (is_prefix ALLURE_REPORT_DIR p) eqn:H2; [done|].
  apply bool_decide_eq_false in H1, H2.
  repeat constructor; intros Hpre; done.
Qed.



End Clean.

(* ===================================================================== *)
(** * Further properties of the validator                                 *)
(* ===================================================================== *)

Section ValidatorFacts.
Import final_qa_validation Notions Observed.
Context (w : world).

Lemma run_pytest_command_outcome (args : list string) :
  run_pytest_command w args = Ok (outcome w args).
Proof.
  unfold run_pytest_command, outcome.
  destruct (subprocess_run w _) as [p|[[] msg]]; reflexivity.
Qed.

Lemma split_nonempty (c : ascii) (s : string) : ∃ h t, split c s = h :: t.
Proof.
  induction s as [|a s (h & t & IH)]; simpl; [by eauto|].
  destruct (Ascii.eqb a c); [by eauto|]. rewrite IH. by eauto.
Qed.

(** A text that starts with a needle free of separators has a first piece
    that starts with it. *)
Lemma startswith_first_piece (c : ascii) (needle s : string) :
  all_chars (λ a, negb (Ascii.eqb a c)) needle = true →
  startswith needle s = true →
  ∃ h t, split c s = h :: t ∧ startswith needle h = true.
Proof.
  revert s. induction needle as [|b needle IH]; intros s Hfree Hstart.
  - destruct (split_nonempty c s) as (h & t & ->). by eauto.
  - destruct s as [|a s]; [done|]. simpl in Hfree, Hstart.
    apply andb_true_iff in Hfree as [Hb Hfree].
    apply andb_true_iff in Hstart as [Hab Hstart].
    apply Ascii.eqb_eq in Hab as <-. apply negb_true_iff in Hb.
    destruct (IH s Hfree Hstart) as (h & t & Hs & Hh).
    exists (String b h), t. simpl. rewrite Hb, Hs. split; [done|].
    by rewrite Ascii.eqb_refl, Hh.
Qed.

(** A needle without separator that occurs in a text occurs in one of its
    pieces. *)
Lemma contains_in_piece (c : ascii) (needle s : string) :
  all_chars (λ a, negb (Ascii.eqb a c)) needle = true →
  contains needle s = true →
  ∃ piece, piece ∈ split c s ∧ contains needle piece = true.
Proof.
  intros Hfree. induction s as [|a s IH]; intros Hin.
  - exists EmptyString. split; [by left|done].
  - simpl in Hin. apply orb_true_iff in Hin as [Hstart|Hin].
    + destruct (startswith_first_piece c needle _ Hfree Hstart) as (h & t & Hs & Hh).
      exists h. rewrite Hs. split; [by left|]. by apply contains_here.
    + destruct (IH Hin) as (piece & Hpiece & Hc).
      destruct (split_nonempty c s) as (h & t & Hs). rewrite Hs in Hpiece.
      simpl. rewrite Hs. destruct (Ascii.eqb a c).
      * exists piece. split; [by right|done].
      * apply elem_of_cons in Hpiece as [->|Hpiece].
        -- exists (String a h). split; [by left|].
           simpl. rewrite Hc. apply orb_true_r.
        -- exists piece. split; [by right|done].
Qed.

Lemma filter_nonempty {A} (f : A → bool) (l : list A) (x : A) :
  x ∈ l → f x = true → ∃ y ys, List.filter f l = y :: ys.
Proof.
  induction 1 as [x l|x y l _ IH]; intros Hx; simpl.
  - rewrite Hx. by eauto.
  - destruct (f y); [by eauto|]. by apply IH.
Qed.

End ValidatorFacts.

(** X1.  [validate_bug_discovery] and [validate_complete_pipeline] return
    exactly whether the output of their pytest run contains "collected":
    the branch "tests found but count unclear" of the former can never be
    taken, and neither looks at the return code. *)
Theorem discovery_and_pipeline_verdicts (w : final_qa_validation.world) :
  final_qa_validation.validate_bug_discovery w
  = Ok (contains "collected"
          (Observed.output w ["-m"; "bug_discovery"; "--alluredir=allure-results";
                              "-v"; "--maxfail=5"]))
  ∧ final_qa_validation.validate_complete_pipeline w
    = Ok (contains "collected"
            (Observed.output w ["--alluredir=allure-results"; "-v";
                                "--maxfail=10"; "--tb=line"])).
Proof.
  unfold final_qa_validation.validate_bug_discovery,
    final_qa_validation.validate_complete_pipeline, Observed.output.
  rewrite !run_pytest_command_outcome. split.
  - destruct (Observed.outcome w _) as [[success out] err]. simpl.
    destruct (contains "collected" out) eqn:Hout; [|done].
    destruct (contains_in_piece newline "collected" out) as (line & Hline & Hc);
      [done..|].
    by destruct (filter_nonempty _ _ _ Hline Hc) as (y & ys & ->).
  - by destruct (Observed.outcome w _) as [[success out] err].
Qed.

(** X2.  [validate_regression_suite] fails when its pytest run timed out or
    could not be started, and otherwise passes as soon as the return code
    is 0 or the output contains "collected", so test failures alone do not
    fail it. *)
Theorem regression_suite_verdict (w : final_qa_validation.world) :
  final_qa_validation.validate_regression_suite w
  = match final_qa_validation.subprocess_run w
            (["python"; "-m"; "pytest"]
             ++ ["-m"; "regression"; "--alluredir=allure-results"; "-v"; "--tb=short"]) with
    | Ok p => Ok ((returncode p =? 0) || contains "collected" (stdout p))
    | Raise _ => Ok false
    end.
Proof.
  unfold final_qa_validation.validate_regression_suite.
  rewrite run_pytest_command_outcome. unfold Observed.outcome.
  destruct (final_qa_validation.subprocess_run w _) as [p|[[] msg]]; reflexivity.
Qed.

Section CollectionFacts.
Import final_qa_validation Notions Observed.
Context (w : world).

Lemma collected_count_recorded (pattern : string) :
  collected_count (outcome w [pattern; "--collect-only"; "-q"]).1.1
                  (output w [pattern; "--collect-only"; "-q"])
  = Ok (recorded w pattern).
Proof.
  unfold recorded.
  destruct (collected_count_total
              (outcome w [pattern; "--collect-only"; "-q"]).1.1
              (output w [pattern; "--collect-only"; "-q"])) as [z ->].
  done.
Qed.

Lemma collect_loop_foldl (types : list (string * string)) (acc : gmap string Z) :
  collect_loop w types acc
  = Ok (foldl (λ m tp, <[tp.1 := recorded w tp.2]> m) acc types).
Proof.
  revert acc. induction types as [|[test_type pattern] types IH]; intros acc; [done|].
  simpl. rewrite run_pytest_command_outcome.
  pose proof (collected_count_recorded pattern) as Hc. unfold output in Hc.
  destruct (outcome w [pattern; "--collect-only"; "-q"]) as [[success out] err].
  simpl in *. rewrite Hc. simpl. apply IH.
Qed.

(** The pieces of a text cut at a separator do not hold the separator. *)
Lemma split_pieces_free (c : ascii) (s : string) :
  Forall (λ piece, all_chars (λ a, negb (Ascii.eqb a c)) piece = true) (split c s).
Proof.
  induction s as [|a s IH]; simpl; [by repeat constructor|].
  destruct (Ascii.eqb a c) eqn:Ha; [by constructor|].
  destruct (split c s) as [|h t]; [by repeat constructor; simpl; rewrite Ha|].
  inversion IH as [|? ? Hh Ht]; subst. constructor; [|done].
  simpl. by rewrite Ha, Hh.
Qed.

End CollectionFacts.

(** X3.  [validate_test_collection] never raises.  It stores one count per
    test type, the value of the count extraction for that type's command,
    and its verdict is True exactly when the count stored for "regression"
    is positive, whatever is stored for the other five types. *)
Theorem test_collection_verdict (w : final_qa_validation.world) :
  final_qa_validation.validate_test_collection w
  = Ok (Observed.recorded_counts w, 0 <? Observed.recorded w "-m regression")
  ∧ Forall (λ tp, Observed.recorded_counts w !! tp.1 = Some (Observed.recorded w tp.2))
      final_qa_validation.test_types.
Proof.
  assert (Hall : Forall (λ tp : string * string,
            Observed.recorded_counts w !! tp.1 = Some (Observed.recorded w tp.2))
            final_qa_validation.test_types).
  { unfold Observed.recorded_counts, final_qa_validation.test_types. simpl.
    repeat constructor; simpl;
      repeat (rewrite lookup_insert_ne by done); by rewrite lookup_insert_eq. }
  split; [|done].
  unfold final_qa_validation.validate_test_collection.
  rewrite collect_loop_foldl. fold (Observed.recorded_counts w).
  change (Ok (Observed.recorded_counts w) ≫= ?k) with (k (Observed.recorded_counts w)).
  cbv beta zeta.
  assert (Observed.recorded_counts w !! "regression"
          = Some (Observed.recorded w "-m regression")) as ->; [|done].
  rewrite Forall_forall in Hall.
  apply (Hall ("regression", "-m regression")).
  unfold final_qa_validation.test_types. set_solver.
Qed.

(** X4.  [validate_allure_integration] raises when the old results cannot
    be removed; otherwise it passes exactly when some [*.json] file is seen
    after one of its three pytest runs, whether or not those runs
    succeeded. *)
Theorem allure_integration_verdict (w : final_qa_validation.world) :
  final_qa_validation.validate_allure_integration w
  = match final_qa_validation.clear_allure_results w with
    | Ok _ =>
        Ok (0 <? Observed.json_files w
                   ["-m"; "regression"; "--alluredir=allure-results"; "-v"]
               + Observed.json_files w
                   ["unit/"; "--alluredir=allure-results"; "-v"; "--maxfail=3"]
               + Observed.json_files w
                   ["integration/"; "--alluredir=allure-results"; "-v"; "--maxfail=3"])%nat
    | Raise e => Raise e
    end.
Proof.
  unfold final_qa_validation.validate_allure_integration.
  destruct (final_qa_validation.clear_allure_results w) as [[]|e]; [|done].
  unfold final_qa_validation.allure_test_commands. simpl.
  rewrite !run_pytest_command_outcome. simpl.
  unfold Observed.json_files.
  generalize (default 0%nat (final_qa_validation.json_files_after w
                ["-m"; "regression"; "--alluredir=allure-results"; "-v"])).
  generalize (default 0%nat (final_qa_validation.json_files_after w
                ["unit/"; "--alluredir=allure-results"; "-v"; "--maxfail=3"])).
  generalize (default 0%nat (final_qa_validation.json_files_after w
                ["integration/"; "--alluredir=allure-results"; "-v"; "--maxfail=3"])).
  intros c b a.
  assert (map_fold (λ (_ : string) (n acc : nat), (n + acc)%nat) 0%nat
            (<["integration":=c]> (<["unit":=b]> (<["regression":=a]> ∅)))
          = (b + (c + (a + 0)))%nat) as ->; [by vm_compute|].
  do 2 f_equal. lia.
Qed.

(** X5.  No exception raised inside a validation leaves the validator: a
    validation that raises counts as failed, and the process ends through
    [sys.exit], with 0 when all five validations returned True and with 1
    otherwise.  Only a failure to write the report file ends it with an
    uncaught exception. *)
Theorem validator_ending (w : final_qa_validation.world) :
  final_qa_validation.main w
  = match final_qa_validation.save_report w with
    | Ok _ =>
        SysExit (if forallb (λ v : string * result bool, Notions.passes v.2)
                      (final_qa_validation.validations w)
                 then 0 else 1)
    | Raise e => Uncaught e
    end.
Proof.
  unfold final_qa_validation.main, final_qa_validation.generate_validation_report.
  rewrite run_validations_all.
  generalize (forallb (λ v : string * result bool, Notions.passes v.2)
                (final_qa_validation.validations w)).
  intros b. destruct b; destruct (final_qa_validation.save_report w); reflexivity.
Qed.

(** A results directory that cannot be removed makes one validation raise;
    the validator still runs the others and exits with 1. *)
Example validator_survives_raising_validation :
  final_qa_validation.validate_allure_integration Observed.results_locked
  = Raise (Exn PermissionError "Permission denied")
  ∧ final_qa_validation.main Observed.results_locked = SysExit 1.
Proof. split; by vm_compute. Qed.

(** X6.  The count is read from the first line that mentions both
    "collected" and "test" and from nothing else: the output gives the same
    count as that line alone, whatever follows it. *)
Theorem first_matching_line_decides
    (out : string) (before after : list string) (line : string) :
  split newline out = before ++ line :: after →
  Forall (λ l, final_qa_validation.is_collected_line l = false) before →
  final_qa_validation.is_collected_line line = true →
  final_qa_validation.collected_count true out
  = final_qa_validation.collected_count true line.
Proof.
  intros Hlines Hbefore Hline.
  assert (Hfree : all_chars (λ a, negb (Ascii.eqb a newline)) line = true).
  { pose proof (split_pieces_free newline out) as Hall. rewrite Hlines in Hall.
    apply Forall_app in Hall as [_ Hall]. by inversion Hall. }
  unfold final_qa_validation.collected_count.
  rewrite Hlines, (filter_first_match _ _ _ Hbefore Hline).
  rewrite (split_no_sep _ _ Hfree). simpl List.filter. rewrite Hline.
  reflexivity.
Qed.

(** A test id that contains "collected" ahead of the summary line hides the
    summary: the count is 0. *)
Lemma first_matching_line_decides_witness :
  let out := "unit/test_frame_unit.py::test_collected_frames" +:+ String newline
             "87 tests collected in 0.12s" in
  final_qa_validation.collected_count true out
  = final_qa_validation.collected_count true
      "unit/test_frame_unit.py::test_collected_frames"
  ∧ final_qa_validation.collected_count true out = Ok 0.
Proof.
  split.
  - apply (first_matching_line_decides _ [] ["87 tests collected in 0.12s"]
             "unit/test_frame_unit.py::test_collected_frames").
    + reflexivity.
    + constructor.
    + reflexivity.
  - reflexivity.
Defined.

(* ===================================================================== *)
(** * Further properties of the pipeline runner                           *)
(* ===================================================================== *)

(** ** The counters *)

Section CounterFacts.
Import run_qa_pipeline Notions Observed.
Context (t : fs).

Lemma count_cons (f : path → bool) (file : path) (files : list path) :
  count f (file :: files) = b2z (f file) + count f files.
Proof. unfold count, b2z. simpl. destruct (f file); simpl; lia. Qed.

Lemma count_nil (f : path → bool) : count f [] = 0.
Proof. done. Qed.

Lemma count_bounds (f : path → bool) (files : list path) :
  0 ≤ count f files ≤ Z.of_nat (length files).
Proof.
  induction files as [|file files IH]; [done|].
  rewrite count_cons. unfold b2z. simpl length. destruct (f file); lia.
Qed.

(** A file that parses is passed, or failed or broken, or of another status,
    and only one of the three. *)
Lemma status_partition (file : path) :
  b2z (parses t file)
  = b2z (has_status ["passed"] t file)
    + b2z (has_status ["failed"; "broken"] t file)
    + b2z (other_status t file).
Proof.
  unfold other_status, parses, has_status.
  destruct (load_json t file) as [[| | | | | |members]|]; try done.
  destruct (assoc "status" members) as [[| | | |s| |]|]; try done.
  simpl. destruct (String.eqb s "passed") eqn:Hp.
  - apply String.eqb_eq in Hp as ->. done.
  - by destruct (String.eqb s "failed"), (String.eqb s "broken").
Qed.

Lemma count_partition (files : list path) :
  count (parses t) files
  = count (has_status ["passed"] t) files
    + count (has_status ["failed"; "broken"] t) files
    + count (other_status t) files.
Proof.
  induction files as [|file files IH]; [done|].
  rewrite !count_cons, IH, status_partition. lia.
Qed.

Lemma count_permutation (f : path → bool) (files files' : list path) :
  files ≡ₚ files' → count f files = count f files'.
Proof.
  induction 1 as [|file l l' _ IH|x y l|l l' l'' _ IH _ IH'].
  - done.
  - by rewrite !count_cons, IH.
  - rewrite !count_cons. lia.
  - by rewrite IH.
Qed.

End CounterFacts.

(** X7.  Whatever the result files hold, the counters of the aggregation
    are not negative, the total is at most the number of files visited, and
    the total is the sum of the passed count, the failed count and the
    number of parsed files with any other (or no) status. *)
Theorem aggregate_counters_partition
    (t : gmap (list string) run_qa_pipeline.node) (files : list (list string)) :
  let c := run_qa_pipeline.aggregate_files t files in
  0 ≤ run_qa_pipeline.passed c
  ∧ 0 ≤ run_qa_pipeline.failed c
  ∧ run_qa_pipeline.total c
    = run_qa_pipeline.passed c + run_qa_pipeline.failed c
      + Notions.count (Observed.other_status t) files
  ∧ run_qa_pipeline.passed c + run_qa_pipeline.failed c ≤ run_qa_pipeline.total c
  ∧ run_qa_pipeline.total c ≤ Z.of_nat (length files).
Proof.
  intros c. unfold c. rewrite aggregate_files_counts. simpl.
  pose proof (count_partition t files).
  pose proof (count_bounds (Notions.parses t) files).
  pose proof (count_bounds (Notions.has_status ["passed"] t) files).
  pose proof (count_bounds (Notions.has_status ["failed"; "broken"] t) files).
  pose proof (count_bounds (Observed.other_status t) files).
  lia.
Qed.

(** X8.  The counters do not depend on the order in which the result files
    are visited (the order of [glob.glob] is not specified). *)
Theorem aggregate_order_independent
    (t : gmap (list string) run_qa_pipeline.node) (files files' : list (list string)) :
  files ≡ₚ files' →
  run_qa_pipeline.aggregate_files t files = run_qa_pipeline.aggregate_files t files'.
Proof.
  intros Hperm. rewrite !aggregate_files_counts.
  by rewrite !(count_permutation _ _ _ Hperm).
Qed.

Lemma aggregate_order_independent_witness :
  let a := run_qa_pipeline.ALLURE_RESULTS_DIR ++ ["test_a-result.json"] in
  let b := run_qa_pipeline.ALLURE_RESULTS_DIR ++ ["test_b-result.json"] in
  let t := (Scenarios.pytest_writes
              [Scenarios.result_file "test_a" "passed";
               Scenarios.result_file "test_b" "broken"] 1 ∅).2 in
  run_qa_pipeline.aggregate_files t [a; b] = run_qa_pipeline.aggregate_files t [b; a].
Proof.
  apply (aggregate_order_independent _
           [run_qa_pipeline.ALLURE_RESULTS_DIR ++ ["test_a-result.json"];
            run_qa_pipeline.ALLURE_RESULTS_DIR ++ ["test_b-result.json"]]
           [run_qa_pipeline.ALLURE_RESULTS_DIR ++ ["test_b-result.json"];
            run_qa_pipeline.ALLURE_RESULTS_DIR ++ ["test_a-result.json"]]).
  apply perm_swap.
Defined.

(** ** Steps 1 and 2: the prepared tree *)

Section PreparedTree.
Import run_qa_pipeline Notions Observed.
Context (w : world).

Lemma is_dir_exists (t : fs) (d : path) : is_dir t d = true → exists_ t d = true.
Proof.
  unfold is_dir, exists_. destruct d as [|x d]; [done|].
  intros H. apply bool_decide_eq_true_2.
  destruct (t !! (x :: d)) as [[|]|]; [by eexists|done|done].
Qed.

(** Writing a file into an existing directory, under a name that is not a
    directory, succeeds and changes that one entry. *)
Lemma write_file_ok (p : path) (c : content) (t : fs) :
  is_dir t (parent p) = true →
  t !! p ≠ Some Dir →
  write_file p c t = (Ok (), <[p := File c]> t).
Proof.
  intros Hdir Hp. unfold write_file.
  rewrite (is_dir_exists _ _ Hdir), Hdir. simpl.
  by destruct (t !! p) as [[|]|].
Qed.

(** Whatever [write_file] answers, it changes at most the entry written. *)
Lemma write_file_cases (p : path) (c : content) (t : fs) :
  (write_file p c t = (Ok (), <[p := File c]> t) ∧ is_dir t (parent p) = true)
  ∨ (∃ e, write_file p c t = (Raise e, t)).
Proof.
  unfold write_file.
  destruct (exists_ t (parent p)); simpl; [|by eauto].
  destruct (is_dir t (parent p)); simpl; [|by eauto].
  destruct (t !! p) as [[|]|]; by eauto.
Qed.

Lemma find_available_port_64678 :
  find_available_port w 64678
  = Ok (default 64678 (List.find (port_free w) (range 64678 (64678 + 100)))).
Proof.
  unfold find_available_port. apply port_loop_find.
  apply Forall_forall. intros q Hq%elem_of_range. lia.
Qed.

Lemma create_allure_configuration_tree (t : fs) :
  create_allure_configuration (report_port w)
    (<[ALLURE_RESULTS_DIR ++ ["history"] := Dir]>
       (<[ALLURE_RESULTS_DIR := Dir]> (without_artifacts t)))
  = (Ok (), prepared_tree w t).
Proof.
  unfold create_allure_configuration, prepared_tree, ALLURE_RESULTS_DIR.
  rewrite M_bind_unfold. simpl app.
  assert (Hin : ∀ name, without_artifacts t !! ["allure-results"; name] = None).
  { intros name. rewrite lookup_without_artifacts.
    unfold is_prefix, ALLURE_RESULTS_DIR.
    rewrite bool_decide_eq_true_2; [done|]. by exists [name]. }
  rewrite write_file_ok; first last.
  - rewrite !lookup_insert_ne by done. by rewrite Hin.
  - unfold is_dir. simpl parent.
    by rewrite lookup_insert_ne, lookup_insert_eq.
  - rewrite write_file_ok; [done|..].
    + unfold is_dir. simpl parent.
      by rewrite !lookup_insert_ne, lookup_insert_eq by done.
    + rewrite !lookup_insert_ne by done. by rewrite Hin.
Qed.

(** On a tree whose artifact names are directories or absent, steps 1 and 2
    cannot fail, and [main] continues on the prepared tree. *)
Lemma main_from_step_3 (t : fs) :
  artifacts_in_directories t →
  main w t = from_step_3 w (prepared_tree w t).
Proof.
  intros Ht. unfold main. rewrite find_available_port_64678.
  rewrite M_bind_unfold. unfold lift. fold (report_port w).
  rewrite M_bind_unfold, (clean_previous_results_tree t Ht).
  rewrite M_bind_unfold, create_allure_configuration_tree.
  reflexivity.
Qed.

(** The entries that [glob_suffix] returns lie directly in the directory
    and carry a matching name. *)
Lemma elem_of_glob_suffix (t : fs) (d p : path) (suffix : string) :
  p ∈ glob_suffix t d suffix →
  ∃ name, p = d ++ [name] ∧ is_Some (t !! p) ∧ endswith suffix name = true.
Proof.
  unfold glob_suffix. rewrite list_elem_of_In, filter_In, <- list_elem_of_In.
  intros [Hp Hname].
  apply list_elem_of_fmap in Hp as ([p' x] & -> & Hp%elem_of_map_to_list).
  simpl in *. destruct (last p') as [name|] eqn:Hlast; [|done].
  apply andb_true_iff in Hname as [[Hparent%bool_decide_eq_true _]%andb_true_iff Hend].
  apply last_Some in Hlast as [l' ->].
  unfold parent in Hparent. rewrite removelast_last in Hparent. subst l'.
  exists name. by eauto.
Qed.

Lemma prepared_tree_no_results (t : fs) :
  glob_suffix (prepared_tree w t) ALLURE_RESULTS_DIR "-result.json" = [].
Proof.
  destruct (glob_suffix _ _ _) as [|p l] eqn:Hglob; [done|]. exfalso.
  assert (Hp : p ∈ glob_suffix (prepared_tree w t) ALLURE_RESULTS_DIR "-result.json").
  { rewrite Hglob. by left. }
  apply elem_of_glob_suffix in Hp as (name & -> & [x Hx] & Hend).
  unfold prepared_tree, ALLURE_RESULTS_DIR in Hx. simpl app in Hx.
  apply lookup_insert_Some in Hx as [[Heq _]|[_ Hx]].
  { simplify_eq; by vm_compute in Hend. }
  apply lookup_insert_Some in Hx as [[Heq _]|[_ Hx]].
  { simplify_eq; by vm_compute in Hend. }
  apply lookup_insert_Some in Hx as [[Heq _]|[_ Hx]].
  { simplify_eq; by vm_compute in Hend. }
  apply lookup_insert_Some in Hx as [[Heq _]|[_ Hx]]; [done|].
  rewrite lookup_without_artifacts in Hx.
  unfold is_prefix, ALLURE_RESULTS_DIR in Hx.
  rewrite bool_decide_eq_true_2 in Hx; [done|]. by exists [name].
Qed.

End PreparedTree.

(** X9.  On a tree whose artifact names are directories or absent, steps 1
    and 2 of [main] cannot fail and leave the prepared tree: the earlier
    artifacts are gone, the results directory holds its [history]
    subdirectory and the two configuration files, and no result file.  So
    every result that a run counts was put there during that run, and the
    runner's own configuration files are never counted. *)
Theorem run_starts_from_prepared_tree
    (w : run_qa_pipeline.world) (t : gmap (list string) run_qa_pipeline.node) :
  Notions.artifacts_in_directories t →
  run_qa_pipeline.main w t = Observed.from_step_3 w (Observed.prepared_tree w t)
  ∧ run_qa_pipeline.glob_suffix (Observed.prepared_tree w t)
      run_qa_pipeline.ALLURE_RESULTS_DIR "-result.json" = []
  ∧ (run_qa_pipeline.aggregate run_qa_pipeline.ALLURE_RESULTS_DIR
       (Observed.prepared_tree w t)).1
    = Ok {| run_qa_pipeline.total := 0;
            run_qa_pipeline.passed := 0;
            run_qa_pipeline.failed := 0 |}.
Proof.
  intros Ht. split; [by apply main_from_step_3|]. split.
  - apply prepared_tree_no_results.
  - unfold run_qa_pipeline.aggregate, run_qa_pipeline.read. simpl.
    by rewrite prepared_tree_no_results.
Qed.

Lemma run_starts_from_prepared_tree_witness :
  let w := Scenarios.with_allure [Scenarios.result_file "test_c" "passed"] 0 in
  let t := Scenarios.stale_tree in
  run_qa_pipeline.main w t = Observed.from_step_3 w (Observed.prepared_tree w t)
  ∧ run_qa_pipeline.glob_suffix (Observed.prepared_tree w t)
      run_qa_pipeline.ALLURE_RESULTS_DIR "-result.json" = []
  ∧ (run_qa_pipeline.aggregate run_qa_pipeline.ALLURE_RESULTS_DIR
       (Observed.prepared_tree w t)).1
    = Ok {| run_qa_pipeline.total := 0;
            run_qa_pipeline.passed := 0;
            run_qa_pipeline.failed := 0 |}.
Proof.
  apply (run_starts_from_prepared_tree
           (Scenarios.with_allure [Scenarios.result_file "test_c" "passed"] 0)
           Scenarios.stale_tree).
  apply (bool_decide_unpack _). vm_compute. exact I.
Defined.

(** X10.  When the name of the results directory is taken by a plain file,
    the run stops in step 1 with [NotADirectoryError] and has changed
    nothing. *)
Theorem run_aborts_on_results_file
    (w : run_qa_pipeline.world) (t : gmap (list string) run_qa_pipeline.node)
    (c : run_qa_pipeline.content) :
  t !! run_qa_pipeline.ALLURE_RESULTS_DIR = Some (run_qa_pipeline.File c) →
  run_qa_pipeline.run w t = (Uncaught (Exn NotADirectoryError "Not a directory"), t).
Proof.
  intros Hfile. unfold run_qa_pipeline.run, run_qa_pipeline.main.
  rewrite find_available_port_64678, M_bind_unfold. unfold run_qa_pipeline.lift.
  rewrite M_bind_unfold. unfold run_qa_pipeline.clean_previous_results.
  rewrite M_bind_unfold. unfold run_qa_pipeline.read.
  unfold run_qa_pipeline.exists_, run_qa_pipeline.ALLURE_RESULTS_DIR in *.
  rewrite bool_decide_eq_true_2 by (rewrite Hfile; by eexists).
  rewrite M_bind_unfold. unfold run_qa_pipeline.rmtree. by rewrite Hfile.
Qed.

Lemma run_aborts_on_results_file_witness :
  run_qa_pipeline.run (Scenarios.with_allure [] 0) Observed.results_is_a_file
  = (Uncaught (Exn NotADirectoryError "Not a directory"), Observed.results_is_a_file).
Proof.
  apply (run_aborts_on_results_file (Scenarios.with_allure [] 0)
           Observed.results_is_a_file (run_qa_pipeline.Text "")).
  reflexivity.
Defined.

(** X11.  [main] has no guard around the pytest run: when pytest cannot be
    started, the exception ends the process, and the tree is the prepared
    tree as the failed start left it (no report is generated). *)
Theorem run_dies_with_pytest
    (w : run_qa_pipeline.world) (t t' : gmap (list string) run_qa_pipeline.node)
    (e : exn) :
  Notions.artifacts_in_directories t →
  run_qa_pipeline.pytest w (Observed.prepared_tree w t) = (Raise e, t') →
  run_qa_pipeline.run w t = (Uncaught e, t').
Proof.
  intros Ht Hpytest. unfold run_qa_pipeline.run.
  rewrite (main_from_step_3 w t Ht). unfold Observed.from_step_3.
  by rewrite M_bind_unfold, Hpytest.
Qed.

Lemma run_dies_with_pytest_witness :
  run_qa_pipeline.run Observed.no_python Scenarios.stale_tree
  = (Uncaught (Exn FileNotFoundError "No such file or directory"),
     Observed.prepared_tree Observed.no_python Scenarios.stale_tree).
Proof.
  apply (run_dies_with_pytest Observed.no_python Scenarios.stale_tree).
  - apply (bool_decide_unpack _). vm_compute. exact I.
  - reflexivity.
Defined.

(** ** Steps 4 to 6 *)

Section ReportFacts.
Import run_qa_pipeline Notions Observed.
Context (w : world).

Lemma M_bind_Ok_inv {A B} (m : M A) (k : A → M B) (t t' : fs) (b : B) :
  (m ≫= k) t = (Ok b, t') → ∃ a t1, m t = (Ok a, t1) ∧ k a t1 = (Ok b, t').
Proof.
  rewrite M_bind_unfold. destruct (m t) as [[a|e] t1]; [by eauto|done].
Qed.

Lemma generate_report_returns_true (c : counts) (t : fs) :
  match (generate_report w c t).1 with
  | Ok allure_found => allure_found = true
  | Raise _ => True
  end.
Proof.
  unfold generate_report. rewrite M_bind_unfold.
  destruct (generate_loop w (allure_commands w) t) as [[[]|e] t1]; simpl; try done.
  unfold try_M. rewrite M_bind_unfold.
  assert (Hfallback : ∀ e t0,
    match (handle e
             [(any, λ _ : exn,
                 create_basic_html_report w ALLURE_REPORT_DIR (total c) (passed c)
                   (failed c) EXECUTOR_NAME ENVIRONMENT
                 ≫= λ _ : (), mret true)] t0).1 with
    | Ok allure_found => allure_found = true
    | Raise _ => True
    end).
  { intros e t0. cbn [handle]. unfold any. rewrite matches_any, M_bind_unfold.
    by destruct (create_basic_html_report _ _ _ _ _ _ _ t0) as [[[]|e'] t0']. }
  destruct (scoop_install w t1) as [[[]|e] t2]; [|apply Hfallback].
  rewrite M_bind_unfold.
  destruct (allure_generate_installed w t2) as [[[]|e] t3]; [done|apply Hfallback].
Qed.

Lemma open_in_browser_ok : open_in_browser w = Ok ().
Proof.
  unfold open_in_browser. destruct (webbrowser_open w) as [[]|e]; [done|].
  cbn [try_excepts]. unfold any. by rewrite matches_any.
Qed.

Lemma open_report_keeps_tree (allure_found : bool) (t : fs) :
  (open_report w allure_found t).2 = t.
Proof.
  unfold open_report. rewrite M_bind_unfold. unfold read.
  destruct (allure_found && _); [|done].
  rewrite M_bind_unfold. unfold lift.
  by destruct (open_loop w (allure_commands w)) as [[]|e].
Qed.

Lemma open_loop_ok (cmds : list string) :
  (∀ cmd e, allure_open w cmd = Raise e → matches [FileNotFoundError] e = true) →
  ∃ server_started, open_loop w cmds = Ok server_started.
Proof.
  intros Hopen. induction cmds as [|cmd cmds IH]; [by eexists|].
  cbn [open_loop]. destruct (allure_open w cmd) as [[]|e] eqn:Hcmd; [by eexists|].
  cbn [mbind result_bind rbind try_excepts]. by rewrite (Hopen cmd e Hcmd).
Qed.

Lemma is_dir_lookup (t : fs) (p : path) :
  p ≠ [] → is_dir t p = match t !! p with Some Dir => true | _ => false end.
Proof. by destruct p. Qed.



End ReportFacts.

(** X12.  Whenever step 4 returns, [allure_found] is True: also after the
    fallback page was written instead of an Allure report.  The flag tells
    the later steps nothing about whether allure ran. *)
Theorem generate_report_flag
    (w : run_qa_pipeline.world) (c : run_qa_pipeline.counts)
    (t : gmap (list string) run_qa_pipeline.node) :
  match (run_qa_pipeline.generate_report w c t).1 with
  | Ok allure_found => allure_found = true
  | Raise _ => True
  end.
Proof. apply generate_report_returns_true. Qed.

(** On a machine without allure the fallback is taken and the flag is True
    all the same. *)
Example generate_report_flag_fallback :
  (run_qa_pipeline.generate_report (Scenarios.without_allure [] 0)
     {| run_qa_pipeline.total := 2; run_qa_pipeline.passed := 1;
        run_qa_pipeline.failed := 1 |} ∅).1 = Ok true.
Proof. by vm_compute. Qed.

(** X13.  Step 6 never changes a file, and it cannot fail when the allure
    commands are merely missing: a command that raises [FileNotFoundError]
    is skipped, and whatever the browser raises is ignored. *)
Theorem open_report_harmless
    (w : run_qa_pipeline.world) (allure_found : bool)
    (t : gmap (list string) run_qa_pipeline.node) :
  (∀ cmd e, run_qa_pipeline.allure_open w cmd = Raise e →
            matches [FileNotFoundError] e = true) →
  run_qa_pipeline.open_report w allure_found t = (Ok (), t).
Proof.
  intros Hopen. unfold run_qa_pipeline.open_report.
  rewrite M_bind_unfold. unfold run_qa_pipeline.read, run_qa_pipeline.lift.
  rewrite open_in_browser_ok.
  destruct (allure_found && _); [|done].
  rewrite M_bind_unfold.
  destruct (open_loop_ok w (run_qa_pipeline.allure_commands w) Hopen) as [started ->].
  by destruct started.
Qed.

Lemma open_report_harmless_witness :
  run_qa_pipeline.open_report (Scenarios.without_allure [] 0) true Scenarios.stale_tree
  = (Ok (), Scenarios.stale_tree).
Proof.
  apply (open_report_harmless (Scenarios.without_allure [] 0) true Scenarios.stale_tree).
  intros cmd e He. injection He as <-. reflexivity.
Defined.

Section FinishedRun.
Import run_qa_pipeline Notions Observed.
Context (w : world).

Lemma write_file_Ok_inv (p : path) (c : content) (t t' : fs) (u : unit) :
  write_file p c t = (Ok u, t') →
  t' = <[p := File c]> t ∧ is_dir t (parent p) = true.
Proof.
  intros Hw. destruct (write_file_cases p c t) as [[Hok Hdir]|[e He]].
  - rewrite Hok in Hw. by injection Hw as <-.
  - by rewrite He in Hw.
Qed.

(** What step 5 leaves when it succeeds. *)
Lemma apply_customizations_Ok (port : string) (c : counts) (t t' : fs) :
  apply_customizations w port c t = (Ok (), t') →
  t !! widgets = Some Dir
  ∧ t' = <[widgets ++ ["duration-trend.json"] :=
             File (Json (duration_trend_data (failed c)))]>
          (<[widgets ++ ["retry-trend.json"] := File (Json (retries_trend_data c))]>
          (<[widgets ++ ["categories-trend.json"] :=
               File (Json (categories_trend_data (failed c)))]>
          (<[widgets ++ ["history-trend.json"] := File (Json (history_data c))]>
          (<[widgets ++ ["environment.json"] := File (Json (environment_data w))]>
          (<[widgets ++ ["executors.json"] :=
               File (Json (JArr [executor_data port]))]> t))))).
Proof.
  unfold apply_customizations. intros H.
  apply M_bind_Ok_inv in H as ([] & t1 & [-> Hdir]%write_file_Ok_inv & H).
  apply M_bind_Ok_inv in H as ([] & t2 & [-> _]%write_file_Ok_inv & H).
  apply M_bind_Ok_inv in H as ([] & t3 & [-> _]%write_file_Ok_inv & H).
  apply M_bind_Ok_inv in H as ([] & t4 & [-> _]%write_file_Ok_inv & H).
  apply M_bind_Ok_inv in H as ([] & t5 & [-> _]%write_file_Ok_inv & H).
  apply write_file_Ok_inv in H as [-> _].
  split; [|done].
  change (parent ((ALLURE_REPORT_DIR ++ ["widgets"]) ++ ["executors.json"]))
    with widgets in Hdir.
  rewrite is_dir_lookup in Hdir by done.
  by destruct (t !! widgets) as [[|]|].
Qed.

End FinishedRun.

(** X14.  A run that reaches its end leaves, in the final tree, the
    [widgets] directory with all six widget files: the executors widget
    carries the report port, and the four trend widgets carry the same
    counters, which are not negative and satisfy
    passed + failed <= total. *)
Theorem finished_run_leaves_widgets
    (w : run_qa_pipeline.world) (t t' : gmap (list string) run_qa_pipeline.node) :
  run_qa_pipeline.main w t = (Ok (), t') →
  ∃ c : run_qa_pipeline.counts,
    (0 ≤ run_qa_pipeline.passed c ∧ 0 ≤ run_qa_pipeline.failed c
     ∧ run_qa_pipeline.passed c + run_qa_pipeline.failed c ≤ run_qa_pipeline.total c)
    ∧ t' !! Notions.widgets = Some run_qa_pipeline.Dir
    ∧ t' !! (Notions.widgets ++ ["executors.json"])
      = Some (run_qa_pipeline.File (run_qa_pipeline.Json
          (run_qa_pipeline.JArr
             [run_qa_pipeline.executor_data (Observed.report_port w)])))
    ∧ t' !! (Notions.widgets ++ ["environment.json"])
      = Some (run_qa_pipeline.File (run_qa_pipeline.Json
          (run_qa_pipeline.environment_data w)))
    ∧ t' !! (Notions.widgets ++ ["history-trend.json"])
      = Some (run_qa_pipeline.File (run_qa_pipeline.Json
          (run_qa_pipeline.history_data c)))
    ∧ t' !! (Notions.widgets ++ ["categories-trend.json"])
      = Some (run_qa_pipeline.File (run_qa_pipeline.Json
          (run_qa_pipeline.categories_trend_data (run_qa_pipeline.failed c))))
    ∧ t' !! (Notions.widgets ++ ["retry-trend.json"])
      = Some (run_qa_pipeline.File (run_qa_pipeline.Json
          (run_qa_pipeline.retries_trend_data c)))
    ∧ t' !! (Notions.widgets ++ ["duration-trend.json"])
      = Some (run_qa_pipeline.File (run_qa_pipeline.Json
          (run_qa_pipeline.duration_trend_data (run_qa_pipeline.failed c)))).
Proof.
  intros Hmain. unfold run_qa_pipeline.main in Hmain.
  rewrite find_available_port_64678 in Hmain.
  apply M_bind_Ok_inv in Hmain as (port & t0 & Hport & Hmain).
  unfold run_qa_pipeline.lift in Hport. injection Hport as <- <-.
  fold (Observed.report_port w) in Hmain.
  apply M_bind_Ok_inv in Hmain as ([] & t1 & _ & Hmain).
  apply M_bind_Ok_inv in Hmain as ([] & t2 & _ & Hmain).
  apply M_bind_Ok_inv in Hmain as (res & t3 & _ & Hmain).
  apply M_bind_Ok_inv in Hmain as (c & t4 & Hagg & Hmain).
  apply M_bind_Ok_inv in Hmain as (found & t5 & _ & Hmain).
  apply M_bind_Ok_inv in Hmain as ([] & t6 & Hcust & Hopen).
  pose proof (open_report_keeps_tree w found t6) as Hkeep.
  rewrite Hopen in Hkeep. simpl in Hkeep. subst t'.
  apply apply_customizations_Ok in Hcust as [Hwidgets ->].
  exists c. split.
  - unfold run_qa_pipeline.aggregate, run_qa_pipeline.read in Hagg.
    injection Hagg as <- _. rewrite aggregate_files_counts. simpl.
    set (files := run_qa_pipeline.glob_suffix t3 _ _).
    pose proof (count_partition t3 files).
    pose proof (count_bounds (Notions.has_status ["passed"] t3) files).
    pose proof (count_bounds (Notions.has_status ["failed"; "broken"] t3) files).
    pose proof (count_bounds (Observed.other_status t3) files).
    lia.
  - unfold Notions.widgets, run_qa_pipeline.ALLURE_REPORT_DIR in *. simpl app in *.
    repeat split;
      repeat (rewrite lookup_insert_ne by done);
      by rewrite ?lookup_insert_eq.
Qed.

Lemma finished_run_leaves_widgets_witness :
  let w := Scenarios.with_allure
             [Scenarios.result_file "test_a" "passed";
              Scenarios.result_file "test_b" "failed"] 1 in
  let t' := (run_qa_pipeline.main w ∅).2 in
  ∃ c : run_qa_pipeline.counts,
    (0 ≤ run_qa_pipeline.passed c ∧ 0 ≤ run_qa_pipeline.failed c
     ∧ run_qa_pipeline.passed c + run_qa_pipeline.failed c ≤ run_qa_pipeline.total c)
    ∧ t' !! Notions.widgets = Some run_qa_pipeline.Dir
    ∧ t' !! (Notions.widgets ++ ["executors.json"])
      = Some (run_qa_pipeline.File (run_qa_pipeline.Json
          (run_qa_pipeline.JArr
             [run_qa_pipeline.executor_data (Observed.report_port w)])))
    ∧ t' !! (Notions.widgets ++ ["environment.json"])
      = Some (run_qa_pipeline.File (run_qa_pipeline.Json
          (run_qa_pipeline.environment_data w)))
    ∧ t' !! (Notions.widgets ++ ["history-trend.json"])
      = Some (run_qa_pipeline.File (run_qa_pipeline.Json
          (run_qa_pipeline.history_data c)))
    ∧ t' !! (Notions.widgets ++ ["categories-trend.json"])
      = Some (run_qa_pipeline.File (run_qa_pipeline.Json
          (run_qa_pipeline.categories_trend_data (run_qa_pipeline.failed c))))
    ∧ t' !! (Notions.widgets ++ ["retry-trend.json"])
      = Some (run_qa_pipeline.File (run_qa_pipeline.Json
          (run_qa_pipeline.retries_trend_data c)))
    ∧ t' !! (Notions.widgets ++ ["duration-trend.json"])
      = Some (run_qa_pipeline.File (run_qa_pipeline.Json
          (run_qa_pipeline.duration_trend_data (run_qa_pipeline.failed c)))).
Proof.
  intros w t'. subst t'.
  destruct (run_qa_pipeline.main w ∅) as [r t'] eqn:Hmain.
  pose proof (f_equal fst Hmain) as Hfst.
  vm_compute in Hfst. subst r.
  exact (finished_run_leaves_widgets w ∅ t' Hmain).
Defined.



(** A quotient beyond the range of a float makes the page fail with
    [OverflowError], although the total is not 0. *)
Example create_basic_html_report_overflow :
  (run_qa_pipeline.create_basic_html_report (Scenarios.without_allure [] 0)
     run_qa_pipeline.ALLURE_REPORT_DIR 1 (10 ^ 400) 0 "QA Engineer" "Stage" ∅).1
  = Raise (Exn OverflowError "integer division result too large for a float").
Proof. by vm_compute. Qed.

(** X16.  In the "Current" entry of the history-trend widget the failed
    field is the number of failed and broken results together, the passed
    field the number of passed results, the fields broken, skipped and
    unknown are always 0, and the total also counts the parsed results of
    any other status: the status fields add up to the total only when there
    is no such result. *)
Theorem history_trend_current
    (t : gmap (list string) run_qa_pipeline.node) (files : list (list string)) :
  let trend := run_qa_pipeline.history_data (run_qa_pipeline.aggregate_files t files) in
  Notions.trend_name trend 4
  = Some (run_qa_pipeline.JStr "OpenFilter QA Report - Current")
  ∧ Observed.trend_int trend 4 "failed"
    = Some (Notions.count (Notions.has_status ["failed"; "broken"] t) files)
  ∧ Observed.trend_int trend 4 "passed"
    = Some (Notions.count (Notions.has_status ["passed"] t) files)
  ∧ Observed.trend_int trend 4 "broken" = Some 0
  ∧ Observed.trend_int trend 4 "skipped" = Some 0
  ∧ Observed.trend_int trend 4 "unknown" = Some 0
  ∧ Observed.trend_int trend 4 "total"
    = Some (Notions.count (Notions.has_status ["passed"] t) files
            + Notions.count (Notions.has_status ["failed"; "broken"] t) files
            + Notions.count (Observed.other_status t) files).
Proof.
  intros trend. unfold trend. rewrite aggregate_files_counts.
  repeat split; try reflexivity.
  unfold Observed.trend_int. simpl. f_equal. apply count_partition.
Qed.

(** X17.  Step 4 absorbs only [FileNotFoundError] and [CalledProcessError]
    of an allure command: any other exception of the first command ends
    the step at once, no further command is tried and no fallback page is
    written. *)
Theorem generate_report_other_errors
    (w : run_qa_pipeline.world) (c : run_qa_pipeline.counts)
    (t t1 : gmap (list string) run_qa_pipeline.node) (e : exn) :
  run_qa_pipeline.allure_generate w "allure" t = (Raise e, t1) →
  matches [FileNotFoundError; CalledProcessError] e = false →
  run_qa_pipeline.generate_report w c t = (Raise e, t1).
Proof.
  intros Hgen Hcls. unfold run_qa_pipeline.generate_report.
  rewrite M_bind_unfold. unfold run_qa_pipeline.allure_commands.
  cbn [run_qa_pipeline.generate_loop]. unfold run_qa_pipeline.try_M.
  rewrite M_bind_unfold, Hgen. cbn [run_qa_pipeline.handle].
  by rewrite Hcls.
Qed.

Lemma generate_report_other_errors_witness :
  run_qa_pipeline.generate_report Observed.allure_not_executable
    {| run_qa_pipeline.total := 1; run_qa_pipeline.passed := 1;
       run_qa_pipeline.failed := 0 |} ∅
  = (Raise (Exn PermissionError "Permission denied"), ∅).
Proof.
  apply (generate_report_other_errors Observed.allure_not_executable _ ∅ ∅
           (Exn PermissionError "Permission denied")); reflexivity.
Defined.

(** X18.  Whatever the machine and the counters are: when the tree holds
    no [widgets] directory, writing the fallback page and then the widget
    files (steps 4 and 5 on a machine without allure) never reaches the end;
    either the fallback raises or the first widget file cannot be opened. *)
Theorem fallback_never_reaches_step_6
    (w : run_qa_pipeline.world) (port : string) (c : run_qa_pipeline.counts)
    (t : gmap (list string) run_qa_pipeline.node) :
  t !! Notions.widgets = None →
  ∃ e t',
    (_ ← run_qa_pipeline.create_basic_html_report w run_qa_pipeline.ALLURE_REPORT_DIR
           (run_qa_pipeline.total c) (run_qa_pipeline.passed c)
           (run_qa_pipeline.failed c)
           run_qa_pipeline.EXECUTOR_NAME run_qa_pipeline.ENVIRONMENT;
     run_qa_pipeline.apply_customizations w port c) t = (Raise e, t').
Proof. apply fallback_then_customizations_raise. Qed.

Lemma fallback_never_reaches_step_6_witness :
  ∃ e t',
    (_ ← run_qa_pipeline.create_basic_html_report (Scenarios.without_allure [] 0)
           run_qa_pipeline.ALLURE_REPORT_DIR 4 3 1
           run_qa_pipeline.EXECUTOR_NAME run_qa_pipeline.ENVIRONMENT;
     run_qa_pipeline.apply_customizations (Scenarios.without_allure [] 0) "64678"
       {| run_qa_pipeline.total := 4; run_qa_pipeline.passed := 3;
          run_qa_pipeline.failed := 1 |}) ∅ = (Raise e, t').
Proof.
  apply (fallback_never_reaches_step_6 (Scenarios.without_allure [] 0) "64678"
           {| run_qa_pipeline.total := 4; run_qa_pipeline.passed := 3;
              run_qa_pipeline.failed := 1 |} ∅).
  reflexivity.
Defined.

(* ===================================================================== *)
(** * Successive runs                                                     *)
(* ===================================================================== *)

Section Successive.
Import run_qa_pipeline Notions Observed.

Lemma artifact_names (d : path) :
  d ∈ [ALLURE_RESULTS_DIR; ALLURE_REPORT_DIR] →
  d = ALLURE_RESULTS_DIR ∨ d = ALLURE_REPORT_DIR.
Proof. rewrite !elem_of_cons, elem_of_nil. tauto. Qed.

Lemma is_dir_insert_ne (t : fs) (p d : path) (x : node) :
  p ≠ d → is_dir (<[p := x]> t) d = is_dir t d.
Proof.
  intros Hne. destruct d as [|name d]; [done|].
  unfold is_dir. by rewrite lookup_insert_ne.
Qed.

Lemma is_dir_insert_Dir (t : fs) (p d : path) :
  is_dir t d = true → is_dir (<[p := Dir]> t) d = true.
Proof.
  intros Hd. destruct (decide (p = d)) as [->|Hne].
  - destruct d as [|name d]; [done|]. unfold is_dir. by rewrite lookup_insert_eq.
  - by rewrite is_dir_insert_ne.
Qed.

Lemma prefix_of_parent (d p : path) :
  d `prefix_of` p → d ≠ p → d `prefix_of` parent p.
Proof.
  intros [k ->] Hne. destruct k as [|name k _] using rev_ind.
  - by rewrite app_nil_r in Hne.
  - unfold parent. rewrite app_assoc, removelast_last. by exists k.
Qed.

(** An entry may be set when the artifact names stay directories and the
    entry does not land below a name that is none. *)
Lemma insert_in_directories (t : fs) (p : path) (x : node) :
  artifacts_in_directories t →
  (∀ d, d ∈ [ALLURE_RESULTS_DIR; ALLURE_REPORT_DIR] →
        is_dir t d = true → is_dir (<[p := x]> t) d = true) →
  (∀ d, d ∈ [ALLURE_RESULTS_DIR; ALLURE_REPORT_DIR] →
        d `prefix_of` p → is_dir (<[p := x]> t) d = true) →
  artifacts_in_directories (<[p := x]> t).
Proof.
  intros Ht Hstay Hbelow q y Hq. simpl. apply Forall_forall. intros d Hd Hpre.
  apply lookup_insert_Some in Hq as [[<- <-]|[Hne Hq]].
  - by apply Hbelow.
  - apply Hstay; [done|]. by apply (artifacts_dir t d q y).
Qed.

Lemma insert_ready (t : fs) (p : path) (x : node) :
  ready t →
  (∀ d, d ∈ [ALLURE_RESULTS_DIR; ALLURE_REPORT_DIR] →
        is_dir t d = true → is_dir (<[p := x]> t) d = true) →
  (∀ d, d ∈ [ALLURE_RESULTS_DIR; ALLURE_REPORT_DIR] →
        d `prefix_of` p → is_dir (<[p := x]> t) d = true) →
  ready (<[p := x]> t).
Proof.
  intros [Ht Hres] Hstay Hbelow.
  split; [by apply insert_in_directories|apply Hstay; [by left|done]].
Qed.

Lemma insert_below_ready (t : fs) (p : path) (x : node) :
  ready t →
  p ≠ ALLURE_RESULTS_DIR → p ≠ ALLURE_REPORT_DIR →
  (∀ d, d ∈ [ALLURE_RESULTS_DIR; ALLURE_REPORT_DIR] →
        d `prefix_of` p → is_dir t d = true) →
  ready (<[p := x]> t).
Proof.
  intros Ht Hres Hrep Hbelow.
  assert (Hne : ∀ d, d ∈ [ALLURE_RESULTS_DIR; ALLURE_REPORT_DIR] → p ≠ d).
  { intros d [-> | ->]%artifact_names; done. }
  apply insert_ready; [done|..].
  - intros d Hd Hdir. by rewrite is_dir_insert_ne by by apply Hne.
  - intros d Hd Hpre. rewrite is_dir_insert_ne by by apply Hne. by apply Hbelow.
Qed.

Lemma top_level_below (name : string) (d : path) :
  d ∈ [ALLURE_RESULTS_DIR; ALLURE_REPORT_DIR] →
  d `prefix_of` [name] → d = [name].
Proof. intros [-> | ->]%artifact_names [k Hk]; by injection Hk as -> _. Qed.

Lemma insert_Dir_ready (t : fs) (name : string) :
  ready t → ready (<[[name] := Dir]> t).
Proof.
  intros Ht. apply insert_ready; [done|..].
  - intros d _ Hd. by apply is_dir_insert_Dir.
  - intros d Hd Hpre. rewrite (top_level_below name d Hd Hpre).
    unfold is_dir. by rewrite lookup_insert_eq.
Qed.

(** Making the results directory in a tree without artifacts. *)
Lemma insert_results_ready (t : fs) :
  artifacts_in_directories t → ready (<[ALLURE_RESULTS_DIR := Dir]> t).
Proof.
  intros Ht. split.
  - apply insert_in_directories; [done|..].
    + intros d _ Hd. by apply is_dir_insert_Dir.
    + intros d Hd Hpre. rewrite (top_level_below "allure-results" d Hd Hpre).
      unfold is_dir, ALLURE_RESULTS_DIR. by rewrite lookup_insert_eq.
  - unfold is_dir, ALLURE_RESULTS_DIR. by rewrite lookup_insert_eq.
Qed.

(** ** The steps keep the artifact names directories *)

Lemma keeps_ready_bind {A B : Type} (m : M A) (k : A → M B) :
  keeps_ready m → (∀ a, keeps_ready (k a)) → keeps_ready (m ≫= k).
Proof.
  intros Hm Hk t Ht. rewrite M_bind_unfold. specialize (Hm t Ht).
  destruct (m t) as [[a|e] t1]; simpl in *; [by apply Hk|done].
Qed.

Lemma keeps_ready_ret {A : Type} (a : A) : keeps_ready (mret a : M A).
Proof. by intros t Ht. Qed.

Lemma keeps_ready_lift {A : Type} (r : result A) : keeps_ready (lift r).
Proof. by intros t Ht. Qed.

Lemma keeps_ready_read {A : Type} (f : fs → A) : keeps_ready (read f).
Proof. by intros t Ht. Qed.

Lemma keeps_ready_try {A : Type} (m : M A) (cs : list exn_class) (h : exn → M A) :
  keeps_ready m → (∀ e, keeps_ready (h e)) → keeps_ready (try_M m [(cs, h)]).
Proof.
  intros Hm Hh t Ht. unfold try_M. specialize (Hm t Ht).
  destruct (m t) as [[a|e] t1]; simpl in *; [done|].
  destruct (matches cs e); [by apply Hh|done].
Qed.

Lemma write_file_keeps_ready (p : path) (c : content) :
  p ≠ ALLURE_RESULTS_DIR → p ≠ ALLURE_REPORT_DIR →
  keeps_ready (write_file p c).
Proof.
  intros Hres Hrep t Ht.
  destruct (write_file_cases p c t) as [[-> Hdir]|[e ->]]; [|done]. simpl.
  apply insert_below_ready; [done..|].
  intros d Hd Hpre.
  assert (Hne : d ≠ p) by (intros ->; apply artifact_names in Hd as [?|?]; done).
  pose proof (prefix_of_parent d p Hpre Hne) as Hpar.
  assert (Hnil : parent p ≠ []).
  { intros Hnil. rewrite Hnil in Hpar. apply prefix_nil_inv in Hpar.
    apply artifact_names in Hd as [?|?]; by subst d. }
  rewrite is_dir_lookup in Hdir by done.
  destruct (t !! parent p) as [[|]|] eqn:Hnode; [|done..].
  by apply (artifacts_dir t d (parent p) Dir (proj1 Ht)).
Qed.

Lemma makedirs_report_keeps_ready : keeps_ready (makedirs ALLURE_REPORT_DIR).
Proof.
  intros t Ht. unfold makedirs, ALLURE_REPORT_DIR. simpl.
  destruct (t !! ["allure-report"]) as [[|c]|]; simpl; [done|done|].
  by apply insert_Dir_ready.
Qed.

Lemma create_basic_html_report_keeps_ready
    (w : world) (total passed failed : Z) (executor environment : string) :
  keeps_ready (create_basic_html_report w ALLURE_REPORT_DIR total passed failed
                 executor environment).
Proof.
  unfold create_basic_html_report.
  apply keeps_ready_bind; [apply makedirs_report_keeps_ready|intros _].
  apply keeps_ready_bind; [apply keeps_ready_lift|intros pass_rate].
  apply keeps_ready_bind; [apply keeps_ready_lift|intros bug_discovery].
  by apply write_file_keeps_ready.
Qed.

Lemma generate_loop_keeps_ready (w : world) (cmds : list string) :
  orderly w → keeps_ready (generate_loop w cmds).
Proof.
  intros (_ & Hgen & _). induction cmds as [|cmd cmds IH]; [apply keeps_ready_ret|].
  cbn [generate_loop]. apply keeps_ready_try; [|by intros _].
  apply keeps_ready_bind; [apply Hgen|intros _; apply keeps_ready_ret].
Qed.

Lemma generate_report_keeps_ready (w : world) (c : counts) :
  orderly w → keeps_ready (generate_report w c).
Proof.
  intros Hw. pose proof Hw as (_ & _ & Hscoop & Hinstalled).
  unfold generate_report.
  apply keeps_ready_bind; [by apply generate_loop_keeps_ready|].
  intros [|]; [apply keeps_ready_ret|].
  apply keeps_ready_try.
  - apply keeps_ready_bind; [done|intros _].
    apply keeps_ready_bind; [done|intros _; apply keeps_ready_ret].
  - intros _. apply keeps_ready_bind; [|intros _; apply keeps_ready_ret].
    apply create_basic_html_report_keeps_ready.
Qed.

Lemma apply_customizations_keeps_ready (w : world) (port : string) (c : counts) :
  keeps_ready (apply_customizations w port c).
Proof.
  unfold apply_customizations.
  repeat (apply keeps_ready_bind; [by apply write_file_keeps_ready|intros _]).
  by apply write_file_keeps_ready.
Qed.

Lemma open_report_keeps_ready (w : world) (allure_found : bool) :
  keeps_ready (open_report w allure_found).
Proof. intros t Ht. by rewrite open_report_keeps_tree. Qed.

Lemma from_step_3_keeps_ready (w : world) :
  orderly w → keeps_ready (from_step_3 w).
Proof.
  intros Hw. unfold from_step_3.
  apply keeps_ready_bind; [apply Hw|intros result].
  apply keeps_ready_bind; [apply keeps_ready_read|intros c].
  apply keeps_ready_bind; [by apply generate_report_keeps_ready|intros allure_found].
  apply keeps_ready_bind; [apply apply_customizations_keeps_ready|intros _].
  apply open_report_keeps_ready.
Qed.

Lemma results_below (name : string) (d : path) :
  d ∈ [ALLURE_RESULTS_DIR; ALLURE_REPORT_DIR] →
  d `prefix_of` ALLURE_RESULTS_DIR ++ [name] → d = ALLURE_RESULTS_DIR.
Proof. intros [-> | ->]%artifact_names [k Hk]; [done|discriminate Hk]. Qed.


Lemma insert_result_ready (t : fs) (name : string) (x : node) :
  ready t → ready (<[ALLURE_RESULTS_DIR ++ [name] := x]> t).
Proof.
  intros Ht. apply insert_below_ready; [done..|].
  intros d Hd Hpre. rewrite (results_below name d Hd Hpre). apply Ht.
Qed.

Lemma prepared_tree_ready (w : world) (t : fs) : ready (prepared_tree w t).
Proof.
  unfold prepared_tree. do 3 apply insert_result_ready.
  apply insert_results_ready, artifacts_in_directories_without.
Qed.

(** Below the artifact names the prepared tree holds the same entries
    whatever the tree before the run held. *)
Lemma prepared_tree_artifacts (w : world) (t : fs) (p : path) :
  is_prefix ALLURE_RESULTS_DIR p = true ∨ is_prefix ALLURE_REPORT_DIR p = true →
  prepared_tree w t !! p = prepared_tree w ∅ !! p.
Proof.
  intros Hp. unfold prepared_tree. rewrite !lookup_insert.
  repeat (destruct (decide (_ = p)); [done|]).
  rewrite !lookup_without_artifacts.
  destruct Hp as [-> | ->]; [done|]. by rewrite orb_true_r.
Qed.

Lemma run_tree (w : world) (t : fs) : (run w t).2 = (main w t).2.
Proof. unfold run. by destruct (main w t) as [[[]|e] t']. Qed.

(** With orderly programs a run hands the artifact names on as it found
    them: directories, the results directory among them. *)
Lemma main_keeps_ready (w : world) (t : fs) :
  artifacts_in_directories t → orderly w → ready (main w t).2.
Proof.
  intros Ht Hw. rewrite main_from_step_3 by done.
  apply from_step_3_keeps_ready; [done|apply prepared_tree_ready].
Qed.

Lemma runs_in_directories (ws : list world) (t : fs) :
  artifacts_in_directories t → Forall orderly ws →
  artifacts_in_directories (runs ws t).
Proof.
  unfold runs. revert t. induction ws as [|w ws IH]; intros t Ht Hws; [done|].
  apply Forall_cons in Hws as [Hw Hws]. simpl. apply IH; [|done].
  rewrite run_tree. by apply main_keeps_ready.
Qed.


(** ** The machines with allure are orderly *)




End Successive.

(** What holds of one run after the other holds after any number of runs:
    on the tree that a series of runs on orderly machines has left, the next
    run again starts from the prepared tree, in which the artifact names
    hold what they hold when the run starts in an empty directory. *)
Lemma successive_runs_start_afresh
    (earlier : list run_qa_pipeline.world) (w : run_qa_pipeline.world)
    (t : gmap (list string) run_qa_pipeline.node) :
  Notions.artifacts_in_directories t →
  Forall Observed.orderly earlier →
  run_qa_pipeline.main w (Observed.runs earlier t)
  = Observed.from_step_3 w (Observed.prepared_tree w (Observed.runs earlier t))
  ∧ ∀ p, run_qa_pipeline.is_prefix run_qa_pipeline.ALLURE_RESULTS_DIR p = true
         ∨ run_qa_pipeline.is_prefix run_qa_pipeline.ALLURE_REPORT_DIR p = true →
         Observed.prepared_tree w (Observed.runs earlier t) !! p
         = Observed.prepared_tree w ∅ !! p.
Proof.
  intros Ht Hearlier. split.
  - apply main_from_step_3. by apply runs_in_directories.
  - intros p. apply prepared_tree_artifacts.
Qed.



(** After two runs in a row the results directory holds the result files of
    the second run only, the run has reached its end with both directories
    in place, and what the first tree held below the report directory is
    gone. *)
Example second_run_result_files :
  let first := Scenarios.with_allure
                 [Scenarios.result_file "test_a" "passed";
                  Scenarios.result_file "test_b" "failed"] 1 in
  let second := Scenarios.with_allure [Scenarios.result_file "test_c" "passed"] 0 in
  let t1 := (run_qa_pipeline.run first Scenarios.stale_tree).2 in
  let t2 := (run_qa_pipeline.run second t1).2 in
  run_qa_pipeline.glob_suffix t2 run_qa_pipeline.ALLURE_RESULTS_DIR "-result.json"
  = [run_qa_pipeline.ALLURE_RESULTS_DIR ++ ["test_c-result.json"]]
  ∧ (run_qa_pipeline.run second t1).1 = Finished
  ∧ t2 = Observed.runs [first; second] Scenarios.stale_tree
  ∧ t2 !! ["README.md"] = Scenarios.stale_tree !! ["README.md"]
  ∧ t2 !! (run_qa_pipeline.ALLURE_REPORT_DIR ++ ["widgets"; "stale.json"]) = None.
Proof. repeat split; by vm_compute. Qed.
